(** * AOT autograd: the compile-and-cache engine of
      [oslo/pytorch/kernel_fusion/utils/aot_autograd.py]

    A shallow embedding of the pure bookkeeping of the module: the
    static/dynamic argument splitter ([filter_tensor_and_static_args],
    [rearrange]), the joint forward/backward builder
    ([create_joint_forward_backward]), the decomposition table, the
    differentiable wrapper ([CompiledFunction.forward] / [backward]) and the
    output-spec thunk ([PytreeThunk]).

    External collaborators (the tracer [make_fx], the partitioner, the
    compiler backends, [torch.autograd.grad]) are section variables: the
    theorems hold for every implementation of them. *)

From Stdlib Require Import ZArith Lia.
From stdpp Require Import base option list sorting strings gmap.

Set Default Proof Using "Type".

(** ** Python values and exceptions *)

(** A tensor is an opaque leaf: a scalar (0-dim) payload and the
    [requires_grad] flag, the only attribute the module reads. *)
Record tensor := Tensor { data : Z; requires_grad : bool }.

#[warnings="-register-all"]
Inductive pyval :=
| PyNone
| PyInt (z : Z)
| PyTensor (t : tensor)
| PyList (l : list pyval)
| PyTuple (l : list pyval).

(** The exceptions the modelled code can raise. *)
Inductive exn := AssertionError | StopIteration | TypeError | IndexError | ValueError.

Inductive result (A : Type) :=
| Ok (a : A)
| Raise (e : exn).
Arguments Ok {A} a.
Arguments Raise {A} e.

#[global] Instance result_ret : MRet result := fun A a => Ok a.
#[global] Instance result_bind : MBind result := fun A B f m =>
  match m with
  | Ok a => f a
  | Raise e => Raise e
  end.

(** [assert c] *)
Definition py_assert (c : bool) : result unit :=
  if c then Ok tt else Raise AssertionError.

(** [l[i]] for a non-negative index. *)
Definition py_index {A} (l : list A) (i : nat) : result A :=
  match l !! i with
  | Some a => Ok a
  | None => Raise IndexError
  end.

(** [isinstance(p, Tensor) and p.requires_grad] *)
Definition is_grad_tensor (p : pyval) : bool :=
  match p with
  | PyTensor t => requires_grad t
  | _ => false
  end.

(** A [while] loop.  The loop state is threaded explicitly; [None] means the
    fuel ran out before the condition became false. *)
Fixpoint py_while {S : Type} (fuel : nat) (cond : S → bool) (body : S → result S)
    (s : S) : option (result S) :=
  if cond s then
    match fuel with
    | O => None
    | S fuel' =>
        match body s with
        | Ok s' => py_while fuel' cond body s'
        | Raise e => Some (Raise e)
        end
    end
  else Some (Ok s).

(** Sequencing of a possibly non-terminating, possibly raising step. *)
Definition and_then {A B} (m : option (result A)) (k : A → option (result B))
    : option (result B) :=
  match m with
  | None => None
  | Some (Raise e) => Some (Raise e)
  | Some (Ok a) => k a
  end.

(** ** Static/dynamic argument splitter *)

Module Splitter.
Section splitter.
(** [arg.__hash__()] *)
Variable py_hash : pyval → Z.

(** [enumerate(args)] *)
Definition enumerate {A} (l : list A) : list (nat * A) :=
  zip (seq 0 (length l)) l.

(** The three accumulators of [filter_tensor_and_static_args]. *)
Record filter_acc := FilterAcc {
  f_tensor_args : list pyval;
  f_static_args : list pyval;
  f_static_args_hashed : list Z
}.

Definition filter_step (static_argnums : list nat) (acc : filter_acc)
    (ia : nat * pyval) : filter_acc :=
  let '(idx, arg) := ia in
  if negb (bool_decide (idx ∈ static_argnums)) then
    FilterAcc (f_tensor_args acc ++ [arg]) (f_static_args acc)
              (f_static_args_hashed acc)
  else
    FilterAcc (f_tensor_args acc) (f_static_args acc ++ [arg])
              (f_static_args_hashed acc ++ [py_hash arg]).

Definition filter_tensor_and_static_args (args : list pyval)
    (static_argnums : list nat) : list pyval * list pyval * list Z :=
  let acc := foldl (filter_step static_argnums) (FilterAcc [] [] [])
                   (enumerate args) in
  (f_tensor_args acc, f_static_args acc, f_static_args_hashed acc).

(** The loop variables of [rearrange]. *)
Record rearrange_state := RState {
  tensor_index : nat;
  static_index : nat;
  index : nat;
  args : list pyval
}.

Section loops.
Variables (tensor_args static_args : list pyval) (static_argnums : list nat).

(** [while tensor_index < len(tensor_args) and static_index < len(static_args)] *)
Definition merge_cond (s : rearrange_state) : bool :=
  bool_decide (tensor_index s < length tensor_args)
  && bool_decide (static_index s < length static_args).

(** The body of the first loop.  It reads [index] but never writes it. *)
Definition merge_body (s : rearrange_state) : result rearrange_state :=
  num ← py_index static_argnums (static_index s);
  if bool_decide (index s = num) then
    a ← py_index static_args (static_index s);
    mret (RState (tensor_index s) (S (static_index s)) (index s) (args s ++ [a]))
  else
    a ← py_index tensor_args (tensor_index s);
    mret (RState (S (tensor_index s)) (static_index s) (index s) (args s ++ [a])).

(** [while tensor_index < len(tensor_args)] *)
Definition tensor_cond (s : rearrange_state) : bool :=
  bool_decide (tensor_index s < length tensor_args).

Definition tensor_body (s : rearrange_state) : result rearrange_state :=
  a ← py_index tensor_args (tensor_index s);
  mret (RState (S (tensor_index s)) (static_index s) (index s) (args s ++ [a])).

(** [while static_index < len(static_args)] *)
Definition static_cond (s : rearrange_state) : bool :=
  bool_decide (static_index s < length static_args).

Definition static_body (s : rearrange_state) : result rearrange_state :=
  a ← py_index static_args (static_index s);
  mret (RState (tensor_index s) (S (static_index s)) (index s) (args s ++ [a])).

Definition rearrange (fuel : nat) : option (result (list pyval)) :=
  match py_assert (bool_decide (length static_args = length static_argnums)) with
  | Raise e => Some (Raise e)
  | Ok _ =>
      and_then (py_while fuel merge_cond merge_body (RState 0 0 0 [])) (λ s1,
      and_then (py_while fuel tensor_cond tensor_body s1) (λ s2,
      and_then (py_while fuel static_cond static_body s2) (λ s3,
      Some (Ok (args s3)))))
  end.
End loops.
End splitter.
End Splitter.

(** ** Joint forward/backward builder *)

(** The items of a Python sequence, as [len] and iteration see them.  [None],
    integers and 0-dim tensors have no [len] and cannot be iterated. *)
Definition py_items (v : pyval) : result (list pyval) :=
  match v with
  | PyList l | PyTuple l => Ok l
  | _ => Raise TypeError
  end.

Module Joint.
(** One invocation of [torch.autograd.grad]. *)
Record grad_call := GradCall {
  gc_outputs : list pyval;
  gc_inputs : list pyval;
  gc_grad_outputs : list pyval;
  gc_allow_unused : bool
}.

(** A computation that may raise and that logs the calls it makes to the
    autodiff primitive. *)
Definition eff (A : Type) : Type := (list grad_call * result A)%type.

#[global] Instance eff_ret : MRet eff := fun A a => ([], Ok a).
#[global] Instance eff_bind : MBind eff := fun A B f m =>
  match m with
  | (log, Ok a) => let '(log', r) := f a in (log ++ log', r)
  | (log, Raise e) => (log, Raise e)
  end.

Definition lift {A} (r : result A) : eff A := ([], r).

(** [[next(it) if i else None for i in flags]], the iterator [it] being the
    list of the elements not yet consumed. *)
Fixpoint next_or_none (it : list pyval) (flags : list bool) : result (list pyval) :=
  match flags with
  | [] => Ok []
  | true :: flags' =>
      match it with
      | [] => Raise StopIteration
      | g :: it' => rest ← next_or_none it' flags'; mret (g :: rest)
      end
  | false :: flags' => rest ← next_or_none it flags'; mret (PyNone :: rest)
  end.

Section joint.
(** [torch.autograd.grad(outputs, inputs, grad_outputs=..., allow_unused=True)] *)
Variable autograd_grad : list pyval → list pyval → list pyval → list pyval.
Variable fn : list pyval → pyval.

Definition call_autograd (outputs inputs grad_outputs : list pyval)
    : eff (list pyval) :=
  ([GradCall outputs inputs grad_outputs true],
   Ok (autograd_grad outputs inputs grad_outputs)).

(** First loop: [(grad_primals, inputs_needs_grads)]. *)
Definition primal_step (acc : list pyval * list bool) (p : pyval)
    : list pyval * list bool :=
  let is_grad := is_grad_tensor p in
  let needs := acc.2 ++ [is_grad] in
  if is_grad then (acc.1 ++ [p], needs) else (acc.1, needs).

(** Second loop: [(needed_outs, needed_tangents)]. *)
Definition out_step (acc : list pyval * list pyval) (ot : pyval * pyval)
    : list pyval * list pyval :=
  if is_grad_tensor ot.1 then (acc.1 ++ [ot.1], acc.2 ++ [ot.2]) else acc.

Definition joint_forward_backward (primals tangents : list pyval)
    : eff (pyval * list pyval) :=
  let outs := fn primals in
  let '(grad_primals, inputs_needs_grads) := foldl primal_step ([], []) primals in
  out_items ← lift (py_items outs);
  _ ← lift (py_assert (bool_decide (length tangents = length out_items)));
  let '(needed_outs, needed_tangents) :=
    foldl out_step ([], []) (zip out_items tangents) in
  backward_out ←
    (if bool_decide (grad_primals ≠ []) then
       call_autograd needed_outs grad_primals needed_tangents
     else mret []);
  grads ← lift (next_or_none backward_out inputs_needs_grads);
  mret (outs, grads).
End joint.

Definition create_joint_forward_backward := joint_forward_backward.
End Joint.

(** ** Decomposition table *)

Module Decomp.
(** [aten.sub(a, b, alpha=alpha)]: [a - alpha * b], the first operand a
    tensor and the second a tensor or a number. *)
Definition aten_sub (a b : pyval) (alpha : Z) : result pyval :=
  match a, b with
  | PyTensor ta, PyTensor tb =>
      Ok (PyTensor (Tensor (data ta - alpha * data tb)
                           (requires_grad ta || requires_grad tb)))
  | PyTensor ta, PyInt z =>
      Ok (PyTensor (Tensor (data ta - alpha * z) (requires_grad ta)))
  | _, _ => Raise TypeError
  end.

(** Unary minus. *)
Definition py_neg (v : pyval) : result pyval :=
  match v with
  | PyTensor t => Ok (PyTensor (Tensor (- data t) (requires_grad t)))
  | PyInt z => Ok (PyInt (- z))
  | _ => Raise TypeError
  end.

(** [def rsub(a, b, alpha=1): return -aten.sub(a, b)] *)
Definition rsub (a b : pyval) (alpha : pyval) : result pyval :=
  d ← aten_sub a b 1; py_neg d.

(** A decomposition is a callable on the operator's positional arguments. *)
Definition decomposition : Type := list pyval → result pyval.

(** [rsub] as the registered callable, [alpha] defaulting to [1]. *)
Definition rsub_callable : decomposition := fun args =>
  match args with
  | [a; b] => rsub a b (PyInt 1)
  | [a; b; alpha] => rsub a b alpha
  | _ => Raise TypeError
  end.

(** [{**d1, **d2}]: the entries of [d1], then those of [d2] written over
    them. *)
Definition dict_unpack {V} (d1 d2 : gmap string V) : gmap string V := d2 ∪ d1.
End Decomp.

(** ** Differentiable wrapper *)

(** [normalize_as_list] *)
Definition normalize_as_list (x : pyval) : list pyval :=
  match x with
  | PyTuple l => l
  | PyList l => l
  | _ => [x]
  end.

(** [pytree.tree_map(lambda x: x.detach() if isinstance(x, Tensor) else x, out)] *)
Fixpoint detach_tree (v : pyval) : pyval :=
  match v with
  | PyTensor t => PyTensor (Tensor (data t) false)
  | PyList l => PyList (map detach_tree l)
  | PyTuple l => PyTuple (map detach_tree l)
  | _ => v
  end.

(** [l[n:]] and [l[0:n]]; a bound that is [None] leaves that side open. *)
Definition slice_from {A} (n : option nat) (l : list A) : list A :=
  match n with
  | Some k => drop k l
  | None => l
  end.

Definition slice_to {A} (n : option nat) (l : list A) : list A :=
  match n with
  | Some k => take k l
  | None => l
  end.

Module Wrapper.
(** A compiled artifact: [Executable(args...) -> results]. *)
Definition executable : Type := list pyval → pyval.

(** The [nonlocal] variables shared by [forward] and [backward]. *)
Record closure := Closure {
  compiled_fw : option executable;
  compiled_bw : option executable;
  num_outs : option nat
}.

Definition initial : closure := Closure None None None.

(** The autograd context object of one forward/backward pairing. *)
Record context := Context { saved_tensors : list pyval }.

Section wrapper.
Variable Graph : Type.
Variable autograd_grad : list pyval → list pyval → list pyval → list pyval.
(** [flat_fn], run under the gradient mode given first. *)
Variable flat_fn : bool → list pyval → pyval.
Variable make_fx :
  (list pyval → list pyval → Joint.eff (pyval * list pyval)) →
  gmap string Decomp.decomposition → list pyval * pyval → Graph.
Variable partition_fn : Graph → list pyval * pyval → Graph * Graph.
Variables fw_compiler bw_compiler : Graph → list pyval → executable.
Variable aot_autograd_decompositions : gmap string Decomp.decomposition.
Variable decompositions : gmap string Decomp.decomposition.
Variable grad_state : bool.

Definition joint_forward_backward :=
  Joint.create_joint_forward_backward autograd_grad (flat_fn grad_state).

Definition aot_decompositions : gmap string Decomp.decomposition :=
  Decomp.dict_unpack aot_autograd_decompositions decompositions.

(** The branch [if compiled_fw is None] of [forward]: the new closure and
    [fw_outs]. *)
Definition compile_and_run (flat_tensor_args : list pyval)
    : closure * list pyval :=
  let out := detach_tree (flat_fn grad_state flat_tensor_args) in
  let n :=
    match out with
    | PyList l | PyTuple l => length l
    | _ => 1
    end in
  let joint_inputs := (flat_tensor_args, out) in
  let fx_g := make_fx joint_forward_backward aot_decompositions joint_inputs in
  let '(fw_module, bw_module) := partition_fn fx_g joint_inputs in
  let cfw := fw_compiler fw_module flat_tensor_args in
  let fw_outs := normalize_as_list (cfw flat_tensor_args) in
  let bw_args := slice_from (Some n) fw_outs ++ slice_to (Some n) fw_outs in
  let cbw := bw_compiler bw_module bw_args in
  (Closure (Some cfw) (Some cbw) (Some n), fw_outs).

(** [CompiledFunction.forward(ctx, *flat_tensor_args)] *)
Definition forward (c : closure) (ctx : context) (flat_tensor_args : list pyval)
    : closure * context * pyval :=
  let '(c', fw_outs) :=
    match compiled_fw c with
    | None => compile_and_run flat_tensor_args
    | Some cfw => (c, normalize_as_list (cfw flat_tensor_args))
    end in
  let ctx' := Context (slice_from (num_outs c') fw_outs) in
  (c', ctx', PyTuple (slice_to (num_outs c') fw_outs)).

(** [CompiledFunction.backward(ctx, *flat_args)]; calling [None] is a
    [TypeError]. *)
Definition backward (c : closure) (ctx : context) (flat_args : list pyval)
    : result pyval :=
  let contiguous_args := map (λ t, t) flat_args in
  match compiled_bw c with
  | None => Raise TypeError
  | Some cbw =>
      let out := normalize_as_list (cbw (saved_tensors ctx ++ contiguous_args)) in
      Ok (PyTuple out)
  end.

(** The closures a wrapper instance can be in: the initial one and those
    left by a [forward] call. *)
Inductive reachable : closure → Prop :=
| reach_initial : reachable initial
| reach_forward c ctx flat_tensor_args :
    reachable c → reachable (forward c ctx flat_tensor_args).1.1.
End wrapper.
End Wrapper.

(** ** Output tree spec *)

Module Pytree.
(** The Python types the module tests specs against. *)
Inductive pytype := TyTuple | TyList | TyDict | TyTreeSpec | TyLeafSpec.

#[global] Instance pytype_eq_dec : EqDecision pytype.
Proof. solve_decision. Defined.

(** [pytree.TreeSpec(type, context, children_specs)] and its subclass
    [pytree.LeafSpec()]. *)
#[warnings="-register-all"]
Inductive TreeSpec :=
| LeafSpec
| NodeSpec (type : pytype) (context : option (list string))
           (children_specs : list TreeSpec).

#[global] Instance TreeSpec_eq_dec : EqDecision TreeSpec.
Proof.
  refine (fix cmp (s1 s2 : TreeSpec) {struct s1} : Decision (s1 = s2) :=
    let _ : EqDecision TreeSpec := cmp in
    match s1, s2 with
    | LeafSpec, LeafSpec => left eq_refl
    | NodeSpec t1 c1 l1, NodeSpec t2 c2 l2 =>
        cast_if_and3 (decide (t1 = t2)) (decide (c1 = c2)) (decide (l1 = l2))
    | _, _ => right _
    end); congruence.
Defined.

(** [type(spec)]: the class of the spec object itself. *)
Definition type_of (s : TreeSpec) : pytype :=
  match s with
  | LeafSpec => TyLeafSpec
  | NodeSpec _ _ _ => TyTreeSpec
  end.

(** [isinstance(s, pytree.LeafSpec)] *)
Definition is_leaf (s : TreeSpec) : bool :=
  match s with
  | LeafSpec => true
  | NodeSpec _ _ _ => false
  end.

(** [spec.children_specs] *)
Definition children (s : TreeSpec) : list TreeSpec :=
  match s with
  | LeafSpec => []
  | NodeSpec _ _ cs => cs
  end.

(** [spec.num_leaves] *)
Fixpoint num_leaves (s : TreeSpec) : nat :=
  match s with
  | LeafSpec => 1
  | NodeSpec _ _ cs => foldr (λ c n, num_leaves c + n) 0 cs
  end.

Section unflatten.
(** The registry of container constructors,
    [SUPPORTED_NODES[spec.type].unflatten_fn(children, context)]. *)
Variable unflatten_fn : pytype → list pyval → option (list string) → result pyval.

(** [pytree.tree_unflatten(values, spec)] for a spec object. *)
Fixpoint tree_unflatten (values : list pyval) (s : TreeSpec) {struct s}
    : result pyval :=
  if negb (bool_decide (length values = num_leaves s)) then Raise ValueError
  else
    match s with
    | LeafSpec => py_index values 0
    | NodeSpec ty ctx cs =>
        child_pytrees ←
          (fix each (cs : list TreeSpec) (start : nat) : result (list pyval) :=
             match cs with
             | [] => Ok []
             | child_spec :: cs' =>
                 let end_ := start + num_leaves child_spec in
                 t ← tree_unflatten (take (end_ - start) (drop start values))
                                    child_spec;
                 rest ← each cs' end_;
                 mret (t :: rest)
             end) cs 0;
        unflatten_fn ty child_pytrees ctx
    end.

(** The attributes of a [PytreeThunk]. *)
Record PytreeThunk := Thunk {
  spec : option TreeSpec;
  is_simple : option bool;
  is_really_simple : option bool
}.

Definition fresh : PytreeThunk := Thunk None None None.

(** Truth value of an attribute that is [None] or a boolean. *)
Definition truthy (b : option bool) : bool := default false b.

(** [PytreeThunk.set(self, spec)]: the thunk after the call and whether the
    call raised. *)
Definition set (self : PytreeThunk) (s : TreeSpec) : PytreeThunk * result unit :=
  match py_assert (bool_decide (spec self = None)
                   || bool_decide (spec self = Some s)) with
  | Raise e => (self, Raise e)
  | Ok _ =>
      let self1 := Thunk (Some s) (is_simple self) (is_really_simple self) in
      let self2 :=
        if bool_decide (type_of s ∈ [TyTuple; TyList])
           && forallb is_leaf (children s)
        then Thunk (spec self1) (Some true) (is_really_simple self1)
        else self1 in
      let self3 :=
        if is_leaf s
        then Thunk (spec self2) (is_simple self2) (Some true)
        else self2 in
      (self3, Ok tt)
  end.

(** [PytreeThunk.unflatten(self, x)] *)
Definition unflatten (self : PytreeThunk) (x : pyval) : result pyval :=
  if truthy (is_really_simple self) then
    items ← py_items x; py_index items 0
  else if truthy (is_simple self) then Ok x
  else
    match spec self with
    | None => Raise ValueError
    | Some s => items ← py_items x; tree_unflatten items s
    end.

(** The general path alone. *)
Definition general_unflatten (s : TreeSpec) (x : pyval) : result pyval :=
  items ← py_items x; tree_unflatten items s.
End unflatten.
End Pytree.


(** ** Dictionaries and their pytree registrations *)

Module Dict.
Section dict.
Context {K : Type} `{EqDecision K}.

(** A Python [dict]: its items in insertion order, the keys distinct. *)
Definition pydict : Type := list (K * pyval).

(** [d.keys()] and [d.values()] *)
Definition keys (d : pydict) : list K := d.*1.
Definition values (d : pydict) : list pyval := d.*2.

(** [d[key]]; [None] stands for [KeyError]. *)
Fixpoint get (d : pydict) (key : K) : option pyval :=
  match d with
  | [] => None
  | (k, v) :: rest => if decide (k = key) then Some v else get rest key
  end.

(** [d[key] = value]: a present key keeps its place, a new one goes last. *)
Fixpoint set_item (d : pydict) (key : K) (value : pyval) : pydict :=
  match d with
  | [] => [(key, value)]
  | (k, v) :: rest =>
      if decide (k = key) then (k, value) :: rest
      else (k, v) :: set_item rest key value
  end.

(** [{key: value for key, value in pairs}] *)
Definition comprehension (pairs : list (K * pyval)) : pydict :=
  foldl (λ d kv, set_item d kv.1 kv.2) [] pairs.

(** The order [sorted] compares keys with. *)
Context (R : relation K) `{!∀ x y, Decision (R x y)}.

(** [_dict_flatten(d)] *)
Definition _dict_flatten (d : pydict) : option (list pyval * list K) :=
  let keys := merge_sort R (keys d) in
  values ← mapM (get d) keys;
  Some (values, keys).

(** [_dict_unflatten(values, context)] *)
Definition _dict_unflatten (values : list pyval) (context : list K) : pydict :=
  comprehension (zip context values).

(** The two lambdas registered for [immutable_dict]. *)
Definition immutable_dict_flatten (x : pydict) : list pyval * list K :=
  (values x, keys x).

Definition immutable_dict_unflatten (x : list pyval) (c : list K) : pydict :=
  comprehension (zip c x).
End dict.
End Dict.

(** ** Entry points *)

Module AotFunction.
(** The [static_argnums] argument: [None], an integer or a sequence. *)
Inductive static_argnums_arg :=
| ArgNone
| ArgInt (n : nat)
| ArgSeq (l : list nat).

(** The normalisation at the head of [aot_function]. *)
Definition normalize_static_argnums (a : static_argnums_arg) : option (list nat) :=
  match a with
  | ArgInt n => Some [n]
  | ArgNone => None
  | ArgSeq l =>
      if bool_decide (length l = 0) then None
      else Some (merge_sort (≤) l)
  end.

Section returned_function.
Variable py_hash : pyval → Z.
Variable static_argnums : option (list nat).

(** The head of [returned_function]: [(tensor_args, static_args,
    static_args_hashed)]. *)
Definition split_args (args : list pyval) : list pyval * list pyval * list Z :=
  match static_argnums with
  | Some nums => Splitter.filter_tensor_and_static_args py_hash args nums
  | None => (args, [], [])
  end.

(** The argument list [flat_fn] calls [fn] with. *)
Definition rebuild_args (tensor_args static_args : list pyval) (fuel : nat)
    : option (result (list pyval)) :=
  match static_argnums with
  | None => Some (Ok tensor_args)
  | Some nums => Splitter.rearrange tensor_args static_args nums fuel
  end.
End returned_function.

(** [params_and_buffers = {**named_params, **named_buffers}] in
    [aot_module]. *)
Definition params_and_buffers (named_params named_buffers : gmap string pyval)
    : gmap string pyval :=
  Decomp.dict_unpack named_params named_buffers.
End AotFunction.

(** A run of [set] calls on one thunk, failed calls included. *)
Definition set_all (self : Pytree.PytreeThunk) (specs : list Pytree.TreeSpec)
    : Pytree.PytreeThunk :=
  foldl (λ t s, (Pytree.set t s).1) self specs.

(** ** Specification-side helpers *)

(** No tensor inside [v] requires gradient. *)
Fixpoint grad_free (v : pyval) : bool :=
  match v with
  | PyTensor t => negb (requires_grad t)
  | PyList l | PyTuple l => forallb grad_free l
  | _ => true
  end.


(** Length of the longest prefix of [nums] whose entries all equal [ix]. *)
Fixpoint run_length (ix : nat) (nums : list nat) : nat :=
  match nums with
  | n :: rest => if bool_decide (ix = n) then S (run_length ix rest) else 0
  | [] => 0
  end.

(** The dynamic and the static arguments of [l], whose first position is [i],
    for the static indices [nums]. *)
Fixpoint dynamic_from (nums : list nat) (i : nat) (l : list pyval) : list pyval :=
  match l with
  | [] => []
  | a :: r => if bool_decide (i ∈ nums) then dynamic_from nums (S i) r
              else a :: dynamic_from nums (S i) r
  end.

Fixpoint static_from (nums : list nat) (i : nat) (l : list pyval) : list pyval :=
  match l with
  | [] => []
  | a :: r => if bool_decide (i ∈ nums) then a :: static_from nums (S i) r
              else static_from nums (S i) r
  end.

(** A hash function for closed examples. *)
Definition const_hash (v : pyval) : Z := 0%Z.

(** ** Closed instances of the external collaborators *)

Module Example.
(** [lambda *xs: list(xs)] *)
Definition fn (primals : list pyval) : pyval := PyList primals.

(** An autodiff primitive that returns the gradient [1] for every input. *)
Definition autograd_grad (outputs inputs grad_outputs : list pyval) : list pyval :=
  map (λ _, PyTensor (Tensor 1 false)) inputs.

Definition x : pyval := PyTensor (Tensor 3 true).
Definition k : pyval := PyInt 7.
Definition g : pyval := PyTensor (Tensor 5 false).

(** A flat function that returns its arguments as a list, whatever the mode. *)
Definition flat_fn (grad_mode : bool) (primals : list pyval) : pyval := PyList primals.

(** Graphs are opaque: one token stands for all of them. *)
Definition make_fx (joint : list pyval → list pyval → Joint.eff (pyval * list pyval))
    (table : gmap string Decomp.decomposition) (inputs : list pyval * pyval) : unit := tt.
Definition partition_fn (g : unit) (inputs : list pyval * pyval) : unit * unit := (g, g).

(** A forward executable that returns its arguments and saves them as well,
    and a backward executable that returns what it is given. *)
Definition fw_compiler (g : unit) (sample : list pyval) : Wrapper.executable :=
  λ args, PyTuple (args ++ args).
Definition bw_compiler (g : unit) (sample : list pyval) : Wrapper.executable :=
  λ args, PyTuple args.

(** The built-in table with its one rule, and a caller's table that
    replaces it. *)
Definition builtin : gmap string Decomp.decomposition :=
  {[ "aten.rsub" := Decomp.rsub_callable ]}.
Definition override : gmap string Decomp.decomposition :=
  {[ "aten.rsub" := (λ _, Ok PyNone) ]}.

Definition forward :=
  Wrapper.forward unit autograd_grad flat_fn make_fx partition_fn fw_compiler
    bw_compiler builtin ∅ true.

(** A registry with the tuple and list constructors only. *)
Definition unflatten_fn (ty : Pytree.pytype) (children : list pyval)
    (ctx : option (list string)) : result pyval :=
  match ty with
  | Pytree.TyTuple => Ok (PyTuple children)
  | Pytree.TyList => Ok (PyList children)
  | _ => Raise ValueError
  end.
End Example.

(** * Theorems *)

(** Unfolds the sequencing of [result] computations. *)
Ltac unfold_result :=
  unfold mbind, mret, result_bind, result_ret in *; simpl in *.

(** ** The argument splitter *)

Section splitter_facts.
Import Splitter.
Variables (t s : list pyval) (nums : list nat).

Lemma tensor_loop fuel ti si ix acc :
  length t - ti ≤ fuel →
  py_while fuel (tensor_cond t) (tensor_body t) (RState ti si ix acc)
  = Some (Ok (RState (ti `max` length t) si ix (acc ++ drop ti t))).
Proof.
  revert ti acc. induction fuel as [|fuel IH]; intros ti acc Hfuel; simpl;
    unfold tensor_cond at 1; simpl; case_bool_decide as Hlt.
  - lia.
  - rewrite drop_ge by lia. rewrite app_nil_r. do 3 f_equal. lia.
  - destruct (lookup_lt_is_Some_2 t ti Hlt) as [a Ha].
    unfold tensor_body at 1, py_index; simpl. rewrite Ha. simpl.
    rewrite IH by lia. rewrite (drop_S _ _ _ Ha), <- app_assoc. simpl.
    do 3 f_equal. lia.
  - rewrite drop_ge by lia. rewrite app_nil_r. do 3 f_equal. lia.
Qed.

Lemma static_loop fuel ti si ix acc :
  length s - si ≤ fuel →
  py_while fuel (static_cond s) (static_body s) (RState ti si ix acc)
  = Some (Ok (RState ti (si `max` length s) ix (acc ++ drop si s))).
Proof.
  revert si acc. induction fuel as [|fuel IH]; intros si acc Hfuel; simpl;
    unfold static_cond at 1; simpl; case_bool_decide as Hlt.
  - lia.
  - rewrite drop_ge by lia. rewrite app_nil_r. do 3 f_equal. lia.
  - destruct (lookup_lt_is_Some_2 s si Hlt) as [a Ha].
    unfold static_body at 1, py_index; simpl. rewrite Ha. simpl.
    rewrite IH by lia. rewrite (drop_S _ _ _ Ha), <- app_assoc. simpl.
    do 3 f_equal. lia.
  - rewrite drop_ge by lia. rewrite app_nil_r. do 3 f_equal. lia.
Qed.

(** The first loop terminates, and what it has emitted plus what it leaves
    is: the statics whose index equals the frozen [index], all tensors, the
    other statics. *)
Lemma merge_loop fuel ti si ix acc :
  length s = length nums →
  (length t - ti) + (length s - si) ≤ fuel →
  ∃ st,
    py_while fuel (merge_cond t s) (merge_body t s nums) (RState ti si ix acc)
    = Some (Ok st)
    ∧ args st ++ drop (tensor_index st) t ++ drop (static_index st) s
      = acc ++ take (run_length ix (drop si nums)) (drop si s)
            ++ drop ti t ++ drop (run_length ix (drop si nums)) (drop si s).
Proof.
  intros Hlen. revert ti si acc.
  assert (Hstop : ∀ ti si acc,
    ¬ (ti < length t ∧ si < length s) →
    (acc ++ drop ti t ++ drop si s : list pyval)
    = acc ++ take (run_length ix (drop si nums)) (drop si s)
          ++ drop ti t ++ drop (run_length ix (drop si nums)) (drop si s)).
  { intros ti si acc Hn. destruct (decide (ti < length t)).
    - rewrite (drop_ge s) by lia. by rewrite take_nil, drop_nil.
    - rewrite (drop_ge t) by lia. simpl. by rewrite take_drop. }
  induction fuel as [|fuel IH]; intros ti si acc Hfuel; simpl;
    unfold merge_cond at 1; simpl.
  - rewrite (proj2 (andb_false_iff _ _)); last first.
    { rewrite !bool_decide_eq_false. lia. }
    eexists; split; [done|]. simpl. apply Hstop. lia.
  - destruct (decide (ti < length t ∧ si < length s)) as [[Ht Hs]|Hn]; last first.
    { rewrite (proj2 (andb_false_iff _ _)); last first.
      { rewrite !bool_decide_eq_false. lia. }
      eexists; split; [done|]. simpl. by apply Hstop. }
    rewrite !bool_decide_eq_true_2 by done. simpl.
    destruct (lookup_lt_is_Some_2 nums si ltac:(lia)) as [num Hnum].
    destruct (lookup_lt_is_Some_2 s si Hs) as [a Ha].
    destruct (lookup_lt_is_Some_2 t ti Ht) as [b Hb].
    unfold merge_body at 1, py_index; simpl. rewrite Hnum. simpl.
    rewrite (drop_S _ _ _ Hnum). simpl.
    case_bool_decide as Hix.
    + rewrite Ha. simpl.
      destruct (IH ti (S si) (acc ++ [a]) ltac:(lia)) as (st & Hst & Heq).
      exists st. split; [done|]. rewrite Heq.
      rewrite (drop_S _ _ _ Ha). simpl. by rewrite <- !app_assoc.
    + rewrite Hb. simpl.
      destruct (IH (S ti) si (acc ++ [b]) ltac:(lia)) as (st & Hst & Heq).
      exists st. split; [done|]. rewrite Heq.
      destruct (drop si nums) as [|n' rest] eqn:Hd.
      * apply (f_equal length) in Hd. rewrite length_drop in Hd. simpl in Hd. lia.
      * assert (n' = num) as ->.
        { pose proof (drop_S _ _ _ Hnum) as Hd'. congruence. }
        simpl. rewrite bool_decide_eq_false_2 by done. simpl.
        rewrite (drop_S _ _ _ Hb). by rewrite <- !app_assoc.
Qed.

(** What [rearrange] computes: with enough fuel it returns, and the result
    puts before the tensors exactly the leading statics whose index is [0]. *)
Lemma rearrange_closed_form fuel :
  length s = length nums →
  length t + length s ≤ fuel →
  rearrange t s nums fuel
  = Some (Ok (take (run_length 0 nums) s ++ t ++ drop (run_length 0 nums) s)).
Proof.
  intros Hlen Hfuel. unfold rearrange.
  rewrite bool_decide_eq_true_2 by done. simpl.
  destruct (merge_loop fuel 0 0 0 [] Hlen ltac:(lia)) as (st & -> & Heq).
  simpl in *. destruct st as [ti si ix acc]. simpl in *.
  rewrite tensor_loop by lia. simpl.
  rewrite static_loop by lia. simpl.
  rewrite <- app_assoc. by rewrite Heq.
Qed.

Lemma rearrange_length_mismatch fuel :
  length s ≠ length nums →
  rearrange t s nums fuel = Some (Raise AssertionError).
Proof.
  intros Hlen. unfold rearrange. by rewrite bool_decide_eq_false_2.
Qed.
End splitter_facts.

(** The split itself: it keeps the relative order on both sides. *)
Section filter_facts.
Import Splitter.
Variable py_hash : pyval → Z.
Variable nums : list nat.

Lemma filter_loop l : ∀ i acc,
  foldl (filter_step py_hash nums) acc (zip (seq i (length l)) l)
  = FilterAcc (f_tensor_args acc ++ dynamic_from nums i l)
              (f_static_args acc ++ static_from nums i l)
              (f_static_args_hashed acc ++ map py_hash (static_from nums i l)).
Proof.
  induction l as [|a r IH]; intros i [ta sa ha]; simpl.
  - by rewrite !app_nil_r.
  - rewrite IH. case_bool_decide; simpl; by rewrite <- ?app_assoc.
Qed.

Lemma filter_closed_form l :
  filter_tensor_and_static_args py_hash l nums
  = (dynamic_from nums 0 l, static_from nums 0 l,
     map py_hash (static_from nums 0 l)).
Proof.
  unfold filter_tensor_and_static_args, enumerate. by rewrite filter_loop.
Qed.
End filter_facts.

(** C1 (the code departs from it): [rearrange] is meant to undo the split,
    but with the static index [1] it returns the arguments [10, 20, 30] as
    [10, 30, 20]: the static argument is moved behind every dynamic one. *)
Theorem rearrange_misplaces_static_argument :
  let original := [PyInt 10; PyInt 20; PyInt 30] in
  let static_argnums := [1] in
  let '(tensor_args, static_args, _) :=
    Splitter.filter_tensor_and_static_args const_hash original static_argnums in
  tensor_args = [PyInt 10; PyInt 30]
  ∧ static_args = [PyInt 20]
  ∧ Splitter.rearrange tensor_args static_args static_argnums 3
    = Some (Ok [PyInt 10; PyInt 30; PyInt 20])
  ∧ Splitter.rearrange tensor_args static_args static_argnums 3
    ≠ Some (Ok original).
Proof.
  cbn zeta. rewrite filter_closed_form. simpl.
  rewrite rearrange_closed_form by (simpl; lia). simpl.
  repeat split; congruence.
Qed.

Lemma dynamic_from_above nums i l :
  (∀ n, n ∈ nums → n < i) → dynamic_from nums i l = l.
Proof.
  revert i. induction l as [|a r IH]; intros i Hlt; simpl; [done|].
  rewrite bool_decide_eq_false_2.
  - f_equal. apply IH. intros n Hn. specialize (Hlt n Hn). lia.
  - intros Hi. specialize (Hlt i Hi). lia.
Qed.

Lemma static_from_above nums i l :
  (∀ n, n ∈ nums → n < i) → static_from nums i l = [].
Proof.
  revert i. induction l as [|a r IH]; intros i Hlt; simpl; [done|].
  rewrite bool_decide_eq_false_2.
  - apply IH. intros n Hn. specialize (Hlt n Hn). lia.
  - intros Hi. specialize (Hlt i Hi). lia.
Qed.

(** An index set on which [rearrange] does undo the split: the only static
    argument is the first one. *)
Lemma rearrange_inverse_static_first py_hash a l fuel :
  S (length l) ≤ fuel →
  let '(tensor_args, static_args, _) :=
    Splitter.filter_tensor_and_static_args py_hash (a :: l) [0] in
  Splitter.rearrange tensor_args static_args [0] fuel = Some (Ok (a :: l)).
Proof.
  intros Hfuel. rewrite filter_closed_form. simpl.
  rewrite dynamic_from_above, static_from_above;
    try (intros n ->%list_elem_of_singleton; lia).
  rewrite rearrange_closed_form by (simpl; lia). simpl.
  by rewrite app_nil_r.
Qed.

(** ** The joint function *)

Section joint_facts.
Import Joint.
Variable autograd_grad : list pyval → list pyval → list pyval → list pyval.
Variable fn : list pyval → pyval.

Lemma primal_loop primals : ∀ acc,
  foldl primal_step acc primals
  = (acc.1 ++ filter (λ p, is_grad_tensor p) primals,
     acc.2 ++ map is_grad_tensor primals).
Proof.
  induction primals as [|p r IH]; intros [gp fl]; simpl.
  - by rewrite !app_nil_r.
  - rewrite IH. unfold primal_step. simpl.
    rewrite filter_cons. destruct (is_grad_tensor p) eqn:Hp; simpl;
      by rewrite <- ?app_assoc.
Qed.

Lemma out_loop pairs : ∀ acc,
  foldl out_step acc pairs
  = (acc.1 ++ (filter (λ ot : pyval * pyval, is_grad_tensor ot.1) pairs).*1,
     acc.2 ++ (filter (λ ot : pyval * pyval, is_grad_tensor ot.1) pairs).*2).
Proof.
  induction pairs as [|[o tg] r IH]; intros [no nt]; simpl.
  - by rewrite !app_nil_r.
  - rewrite IH. unfold out_step. simpl.
    rewrite filter_cons. simpl. destruct (is_grad_tensor o) eqn:Ho; simpl;
      by rewrite <- ?app_assoc.
Qed.

(** The comprehension never raises an assertion error. *)
Lemma next_or_none_no_assertion flags : ∀ it,
  next_or_none it flags ≠ Raise AssertionError.
Proof.
  induction flags as [|[] flags IH]; intros it; simpl; [done| |].
  - destruct it as [|g it]; [done|].
    specialize (IH it). destruct (next_or_none it flags); unfold_result; congruence.
  - specialize (IH it). destruct (next_or_none it flags); unfold_result; congruence.
Qed.

(** With one gradient per flagged position, the comprehension returns: the
    flagged positions take the gradients in order, the others are [None]. *)
Lemma next_or_none_scatter primals : ∀ it,
  length it = length (filter (λ p, is_grad_tensor p) primals) →
  ∃ grads,
    next_or_none it (map is_grad_tensor primals) = Ok grads
    ∧ length grads = length primals
    ∧ ∀ i p, primals !! i = Some p →
        grads !! i =
          if is_grad_tensor p
          then it !! length (filter (λ p, is_grad_tensor p) (take i primals))
          else Some PyNone.
Proof.
  induction primals as [|q r IH]; intros it Hlen; simpl.
  - exists []. by repeat split.
  - rewrite filter_cons in Hlen. destruct (is_grad_tensor q) eqn:Hq; simpl in *.
    + destruct it as [|g it]; [done|].
      simpl in Hlen. destruct (IH it ltac:(lia)) as (grads & -> & Hl & Hpos).
      unfold_result. exists (g :: grads). repeat split; [simpl; lia|].
      intros [|i] p Hp; simpl in *.
      * injection Hp as <-. by rewrite Hq.
      * rewrite (Hpos i p Hp). rewrite filter_cons, Hq. done.
    + destruct (IH it Hlen) as (grads & -> & Hl & Hpos).
      unfold_result. exists (PyNone :: grads). repeat split; [simpl; lia|].
      intros [|i] p Hp; simpl in *.
      * injection Hp as <-. by rewrite Hq.
      * rewrite (Hpos i p Hp). rewrite filter_cons, Hq. done.
Qed.

Lemma next_or_none_all_false flags : ∀ it,
  Forall (λ b, b = false) flags →
  next_or_none it flags = Ok (replicate (length flags) PyNone).
Proof.
  induction flags as [|b flags IH]; intros it Hall; simpl; [done|].
  apply Forall_cons in Hall as [-> Hall]. by rewrite IH.
Qed.
End joint_facts.

Section joint_claims.
Import Joint.
Variable autograd_grad : list pyval → list pyval → list pyval → list pyval.
Variable fn : list pyval → pyval.

(** C2: for tangents matching the outputs in number, the joint function
    returns the outputs of [fn] together with one entry per primal.  The
    autodiff primitive is invoked once (and only when some primal requires
    gradient), on the outputs that require gradient, the primals that require
    gradient and the tangents of those outputs, with [allow_unused].  Entry
    [i] is [None] when primal [i] is not a tensor requiring gradient, and
    otherwise the value the primitive returned for that primal (which is the
    primitive's own [None] for an unused input). *)
Theorem joint_outputs_and_input_gradients primals tangents out_items :
  py_items (fn primals) = Ok out_items →
  length tangents = length out_items →
  let grad_primals := filter (λ p, is_grad_tensor p) primals in
  let needed :=
    filter (λ ot : pyval * pyval, is_grad_tensor ot.1) (zip out_items tangents) in
  let backward_out :=
    if bool_decide (grad_primals ≠ [])
    then autograd_grad needed.*1 grad_primals needed.*2 else [] in
  length backward_out = length grad_primals →
  ∃ grads,
    joint_forward_backward autograd_grad fn primals tangents
    = (if bool_decide (grad_primals ≠ [])
       then [GradCall needed.*1 grad_primals needed.*2 true] else [],
       Ok (fn primals, grads))
    ∧ length grads = length primals
    ∧ ∀ i p, primals !! i = Some p →
        grads !! i =
          if is_grad_tensor p
          then backward_out !! length (filter (λ p, is_grad_tensor p) (take i primals))
          else Some PyNone.
Proof.
  intros Hitems Hlen grad_primals needed backward_out Hback.
  destruct (next_or_none_scatter primals backward_out Hback)
    as (grads & Hgrads & Hl & Hpos).
  exists grads. split; [|done].
  unfold joint_forward_backward. rewrite primal_loop. simpl.
  rewrite Hitems. unfold lift, mbind, eff_bind. simpl.
  rewrite bool_decide_eq_true_2 by done. simpl.
  rewrite out_loop. simpl.
  fold grad_primals needed. subst backward_out.
  case_bool_decide; simpl; rewrite Hgrads; simpl; done.
Qed.
(** C3: the count contract.  When [fn] returns a sequence, a tangent list of
    another length makes the joint function raise [AssertionError] with the
    autodiff primitive never invoked, and a tangent list of the same length
    never makes it raise [AssertionError]. *)
Theorem joint_count_contract primals tangents out_items :
  py_items (fn primals) = Ok out_items →
  (length tangents ≠ length out_items →
     joint_forward_backward autograd_grad fn primals tangents
     = ([], Raise AssertionError))
  ∧ (length tangents = length out_items →
     (joint_forward_backward autograd_grad fn primals tangents).2
     ≠ Raise AssertionError).
Proof.
  intros Hitems. unfold joint_forward_backward. rewrite primal_loop. simpl.
  rewrite Hitems. unfold lift, mbind, eff_bind. simpl. split; intros Hlen.
  - by rewrite bool_decide_eq_false_2.
  - rewrite bool_decide_eq_true_2 by done. simpl. rewrite out_loop. simpl.
    case_bool_decide; unfold call_autograd, mret, eff_ret; simpl;
      match goal with
      | |- context [next_or_none ?it ?fl] =>
          pose proof (next_or_none_no_assertion fl it);
          destruct (next_or_none it fl); simpl; congruence
      end.
Qed.

(** C9: when no primal is a tensor requiring gradient, the autodiff
    primitive is never invoked, whatever the call; and on a call within the
    count contract the joint function returns the outputs with [None] at
    every input-gradient position. *)
Theorem joint_without_differentiable_primals primals tangents :
  Forall (λ p, is_grad_tensor p = false) primals →
  (joint_forward_backward autograd_grad fn primals tangents).1 = []
  ∧ ∀ out_items,
      py_items (fn primals) = Ok out_items →
      length tangents = length out_items →
      joint_forward_backward autograd_grad fn primals tangents
      = ([], Ok (fn primals, replicate (length primals) PyNone)).
Proof.
  intros Hall.
  assert (Hnone : filter (λ p, is_grad_tensor p) primals = []).
  { induction Hall as [|p r Hp _ IH]; [done|].
    rewrite filter_cons, Hp. simpl. exact IH. }
  assert (Hflags : Forall (λ b, b = false) (map is_grad_tensor primals)).
  { by apply Forall_fmap. }
  unfold joint_forward_backward. rewrite primal_loop. simpl. rewrite Hnone.
  unfold lift, mbind, eff_bind. simpl.
  rewrite next_or_none_all_false by done. rewrite length_map.
  split.
  - destruct (py_items (fn primals)) as [items|e]; [|done]. simpl.
    case_bool_decide; [|done]. simpl. by rewrite out_loop.
  - intros out_items -> Hlen. simpl.
    rewrite bool_decide_eq_true_2 by done. simpl. by rewrite out_loop.
Qed.
End joint_claims.

Lemma joint_outputs_and_input_gradients_witness :
  ∃ grads,
    Joint.joint_forward_backward Example.autograd_grad Example.fn
      [Example.x; Example.k] [Example.g; PyNone]
    = ([Joint.GradCall [Example.x] [Example.x] [Example.g] true],
       Ok (PyList [Example.x; Example.k], grads))
    ∧ length grads = 2
    ∧ grads !! 0 = Some (PyTensor (Tensor 1 false))
    ∧ grads !! 1 = Some PyNone.
Proof.
  destruct (joint_outputs_and_input_gradients Example.autograd_grad Example.fn
              [Example.x; Example.k] [Example.g; PyNone] [Example.x; Example.k]
              eq_refl eq_refl eq_refl) as (grads & Hrun & Hlen & Hpos).
  exists grads. split; [exact Hrun|]. split; [exact Hlen|]. split.
  - exact (Hpos 0 Example.x eq_refl).
  - exact (Hpos 1 Example.k eq_refl).
Defined.

Lemma joint_count_contract_witness :
  Joint.joint_forward_backward Example.autograd_grad Example.fn
    [Example.x; Example.k] [Example.g]
  = ([], Raise AssertionError)
  ∧ (Joint.joint_forward_backward Example.autograd_grad Example.fn
       [Example.x; Example.k] [Example.g; PyNone]).2
    ≠ Raise AssertionError.
Proof.
  split.
  - apply (proj1 (joint_count_contract Example.autograd_grad Example.fn
                    [Example.x; Example.k] [Example.g] [Example.x; Example.k]
                    eq_refl)).
    simpl. lia.
  - apply (proj2 (joint_count_contract Example.autograd_grad Example.fn
                    [Example.x; Example.k] [Example.g; PyNone]
                    [Example.x; Example.k] eq_refl)).
    reflexivity.
Defined.

Lemma joint_without_differentiable_primals_witness :
  Joint.joint_forward_backward Example.autograd_grad Example.fn
    [Example.k; Example.g] [PyNone; PyNone]
  = ([], Ok (PyList [Example.k; Example.g], [PyNone; PyNone])).
Proof.
  apply (proj2 (joint_without_differentiable_primals Example.autograd_grad
                  Example.fn [Example.k; Example.g] [PyNone; PyNone]
                  ltac:(repeat constructor)) [Example.k; Example.g]);
    reflexivity.
Defined.

(** ** The decomposition table *)

(** C10: the built-in [rsub] returns [-(a - b)] on a tensor [a] and a tensor
    or number [b], and raises on other operands; [alpha] does not occur in
    the result. *)
Theorem rsub_is_negated_difference a b alpha :
  Decomp.rsub a b alpha =
    match a, b with
    | PyTensor ta, PyTensor tb =>
        Ok (PyTensor (Tensor (- (data ta - data tb))
                             (requires_grad ta || requires_grad tb)))
    | PyTensor ta, PyInt z =>
        Ok (PyTensor (Tensor (- (data ta - z)) (requires_grad ta)))
    | _, _ => Raise TypeError
    end.
Proof.
  unfold Decomp.rsub, Decomp.aten_sub.
  destruct a as [| |ta| |]; try done.
  destruct b as [|z|tb| |]; try done; unfold_result;
    do 3 f_equal; lia.
Qed.

Lemma rsub_alpha_irrelevant a b alpha alpha' :
  Decomp.rsub a b alpha = Decomp.rsub a b alpha'.
Proof. done. Qed.

Section decomposition_facts.
Import Wrapper.
Variable Graph : Type.
Variable autograd_grad : list pyval → list pyval → list pyval → list pyval.
Variable flat_fn : bool → list pyval → pyval.
Variable make_fx :
  (list pyval → list pyval → Joint.eff (pyval * list pyval)) →
  gmap string Decomp.decomposition → list pyval * pyval → Graph.
Variable partition_fn : Graph → list pyval * pyval → Graph * Graph.
Variables fw_compiler bw_compiler : Graph → list pyval → executable.
Variables builtin decompositions : gmap string Decomp.decomposition.
Variable grad_state : bool.

(** The merged table maps every key of the externally supplied table to the
    external value, and every other key to what the built-in table has for
    it. *)
Lemma aot_decompositions_lookup (op : string) :
  aot_decompositions builtin decompositions !! op =
    match decompositions !! op with
    | Some d => Some d
    | None => builtin !! op
    end.
Proof.
  unfold aot_decompositions, Decomp.dict_unpack. rewrite lookup_union.
  destruct (decompositions !! op), (builtin !! op); done.
Qed.

(** The first [forward] call traces the joint function with that table. *)
Lemma forward_traces_with_merged_table ctx flat_tensor_args :
  let out := detach_tree (flat_fn grad_state flat_tensor_args) in
  let fx_g :=
    make_fx (joint_forward_backward autograd_grad flat_fn grad_state)
            (aot_decompositions builtin decompositions)
            (flat_tensor_args, out) in
  compiled_fw
    (forward Graph autograd_grad flat_fn make_fx partition_fn fw_compiler
       bw_compiler builtin decompositions grad_state initial ctx
       flat_tensor_args).1.1
  = Some (fw_compiler (partition_fn fx_g (flat_tensor_args, out)).1
            flat_tensor_args).
Proof.
  simpl. unfold forward, compile_and_run. simpl.
  by destruct (partition_fn _ _).
Qed.

(** C4: the first [forward] call traces the joint function once, with a
    table that maps every key of the externally supplied table to the
    external value and every other key to what the built-in table has for
    it; the forward and the backward executable it stores are compiled from
    the two halves of that traced graph. *)
Theorem tracing_uses_merged_decompositions ctx flat_tensor_args :
  let out := detach_tree (flat_fn grad_state flat_tensor_args) in
  let table := aot_decompositions builtin decompositions in
  let fx_g :=
    make_fx (joint_forward_backward autograd_grad flat_fn grad_state) table
            (flat_tensor_args, out) in
  let c :=
    (forward Graph autograd_grad flat_fn make_fx partition_fn fw_compiler
       bw_compiler builtin decompositions grad_state initial ctx
       flat_tensor_args).1.1 in
  (∀ op : string,
     table !! op = match decompositions !! op with
                   | Some d => Some d
                   | None => builtin !! op
                   end)
  ∧ compiled_fw c
    = Some (fw_compiler (partition_fn fx_g (flat_tensor_args, out)).1
              flat_tensor_args)
  ∧ ∃ bw_args,
      compiled_bw c
      = Some (bw_compiler (partition_fn fx_g (flat_tensor_args, out)).2 bw_args).
Proof.
  cbn zeta. split; [apply aot_decompositions_lookup|].
  unfold forward, compile_and_run. simpl.
  destruct (partition_fn _ _). simpl. eauto.
Qed.
End decomposition_facts.

(** A caller's rule for [aten.rsub] replaces the built-in one. *)
Example override_replaces_rsub :
  (λ d : Decomp.decomposition, d [Example.x; Example.g])
    <$> (Wrapper.aot_decompositions Example.builtin Example.override !! "aten.rsub")
  = Some (Ok PyNone)
  ∧ (λ d : Decomp.decomposition, d [Example.x; Example.g])
    <$> (Wrapper.aot_decompositions Example.builtin ∅ !! "aten.rsub")
  = Some (Ok (PyTensor (Tensor 2 true))).
Proof.
  unfold Wrapper.aot_decompositions, Decomp.dict_unpack, Example.builtin,
    Example.override.
  rewrite !lookup_union, lookup_empty, !lookup_singleton_eq. done.
Qed.

(** ** The differentiable wrapper *)

Section wrapper_facts.
Import Wrapper.
Variable Graph : Type.
Variable autograd_grad : list pyval → list pyval → list pyval → list pyval.
Variable flat_fn : bool → list pyval → pyval.
Variable make_fx :
  (list pyval → list pyval → Joint.eff (pyval * list pyval)) →
  gmap string Decomp.decomposition → list pyval * pyval → Graph.
Variable partition_fn : Graph → list pyval * pyval → Graph * Graph.
Variables fw_compiler bw_compiler : Graph → list pyval → executable.
Variables builtin decompositions : gmap string Decomp.decomposition.
Variable grad_state : bool.

Local Abbreviation fwd :=
  (forward Graph autograd_grad flat_fn make_fx partition_fn fw_compiler
     bw_compiler builtin decompositions grad_state).
Local Abbreviation compile :=
  (compile_and_run Graph autograd_grad flat_fn make_fx partition_fn fw_compiler
     bw_compiler builtin decompositions grad_state).
Local Abbreviation live :=
  (reachable Graph autograd_grad flat_fn make_fx partition_fn fw_compiler
     bw_compiler builtin decompositions grad_state).

(** What the compile branch leaves behind. *)
Lemma compile_and_run_closure flat_tensor_args :
  ∃ cfw cbw,
    compile flat_tensor_args
    = (Closure (Some cfw) (Some cbw)
         (Some match detach_tree (flat_fn grad_state flat_tensor_args) with
               | PyList l | PyTuple l => length l
               | _ => 1
               end),
       normalize_as_list (cfw flat_tensor_args))
    ∧ ∃ bw_module,
        cbw = bw_compiler bw_module
                (drop match detach_tree (flat_fn grad_state flat_tensor_args) with
                      | PyList l | PyTuple l => length l
                      | _ => 1
                      end (normalize_as_list (cfw flat_tensor_args))
                 ++ take match detach_tree (flat_fn grad_state flat_tensor_args) with
                         | PyList l | PyTuple l => length l
                         | _ => 1
                         end (normalize_as_list (cfw flat_tensor_args))).
Proof.
  unfold compile_and_run. destruct (partition_fn _ _) as [fw_module bw_module].
  simpl. eauto 6.
Qed.

(** The three closure variables are set together. *)
Lemma reachable_closure c :
  live c →
  c = initial ∨ ∃ cfw cbw n, c = Closure (Some cfw) (Some cbw) (Some n).
Proof.
  induction 1 as [|c ctx flat_tensor_args _ [->|(cfw & cbw & n & ->)]];
    [by left|right..]; unfold forward; simpl.
  - destruct (compile_and_run_closure flat_tensor_args) as (cfw & cbw & -> & _).
    simpl. eauto.
  - eauto.
Qed.

(** The executables and the output count that the first call with
    [flat_tensor_args] leaves in the closure. *)
Lemma first_forward ctx flat_tensor_args :
  let out := detach_tree (flat_fn grad_state flat_tensor_args) in
  let n := match out with PyList l | PyTuple l => length l | _ => 1 end in
  let fx_g :=
    make_fx (joint_forward_backward autograd_grad flat_fn grad_state)
            (aot_decompositions builtin decompositions)
            (flat_tensor_args, out) in
  let cfw :=
    fw_compiler (partition_fn fx_g (flat_tensor_args, out)).1 flat_tensor_args in
  let fw_outs := normalize_as_list (cfw flat_tensor_args) in
  fwd initial ctx flat_tensor_args
  = (Closure (Some cfw)
       (Some (bw_compiler (partition_fn fx_g (flat_tensor_args, out)).2
                (drop n fw_outs ++ take n fw_outs)))
       (Some n),
     Context (drop n fw_outs), PyTuple (take n fw_outs)).
Proof.
  simpl. unfold forward, compile_and_run. simpl.
  by destruct (partition_fn _ _).
Qed.

(** A closure that is not the initial one is the closure some first call
    left. *)
Lemma reachable_origin c :
  live c →
  c = initial ∨ ∃ first_args, c = (fwd initial (Context []) first_args).1.1.
Proof.
  induction 1 as [|c ctx flat_tensor_args _ [->|[first_args ->]]];
    [by left|right..].
  - exists flat_tensor_args. by rewrite !first_forward.
  - exists first_args. by rewrite !first_forward.
Qed.

(** C5: every forward call on a wrapper runs the forward executable that
    the first call compiled (this call, when the wrapper is not compiled
    yet) on the flat arguments, returns the first [num_outs] of its results
    as a tuple and saves the others in the context; [num_outs] is the
    output count recorded by that first call, and the closure after the
    call holds the executables and the count of that first call. *)
Theorem forward_returns_outputs_and_saves_rest c ctx flat_tensor_args :
  live c →
  ∃ first_args,
    let out := detach_tree (flat_fn grad_state first_args) in
    let n := match out with PyList l | PyTuple l => length l | _ => 1 end in
    let fx_g :=
      make_fx (joint_forward_backward autograd_grad flat_fn grad_state)
              (aot_decompositions builtin decompositions) (first_args, out) in
    let cfw := fw_compiler (partition_fn fx_g (first_args, out)).1 first_args in
    let cbw :=
      bw_compiler (partition_fn fx_g (first_args, out)).2
        (drop n (normalize_as_list (cfw first_args))
         ++ take n (normalize_as_list (cfw first_args))) in
    let fw_outs := normalize_as_list (cfw flat_tensor_args) in
    ((c = initial ∧ first_args = flat_tensor_args)
     ∨ c = Closure (Some cfw) (Some cbw) (Some n))
    ∧ fwd c ctx flat_tensor_args
      = (Closure (Some cfw) (Some cbw) (Some n),
         Context (drop n fw_outs), PyTuple (take n fw_outs)).
Proof.
  intros [->|[first_args ->]]%reachable_origin.
  - exists flat_tensor_args. cbn zeta. split; [by left|]. apply first_forward.
  - exists first_args. cbn zeta. rewrite first_forward. simpl.
    split; [by right|done].
Qed.

(** C6: the backward call that follows a forward call runs the compiled
    backward executable on the values that forward call saved followed by
    the incoming output gradients, and returns its results as a tuple. *)
Theorem backward_runs_on_saved_then_gradients c ctx flat_tensor_args flat_args :
  live c →
  ∃ cfw cbw n,
    compiled_fw (fwd c ctx flat_tensor_args).1.1 = Some cfw
    ∧ compiled_bw (fwd c ctx flat_tensor_args).1.1 = Some cbw
    ∧ num_outs (fwd c ctx flat_tensor_args).1.1 = Some n
    ∧ backward (fwd c ctx flat_tensor_args).1.1
               (fwd c ctx flat_tensor_args).1.2 flat_args
      = Ok (PyTuple (normalize_as_list
              (cbw (drop n (normalize_as_list (cfw flat_tensor_args))
                    ++ flat_args)))).
Proof.
  intros [->|(cfw & cbw & n & ->)]%reachable_closure;
    unfold forward, backward; simpl.
  - destruct (compile_and_run_closure flat_tensor_args) as (cfw & cbw & -> & _).
    simpl. rewrite map_id. eexists _, _, _. repeat split; done.
  - rewrite map_id. exists cfw, cbw, n. repeat split; done.
Qed.

(** Later forward calls keep the executables, so this holds for every
    backward call on a compiled wrapper, whichever forward call made its
    context. *)
Lemma backward_on_compiled c :
  live c → c ≠ initial →
  ∃ cbw,
    compiled_bw c = Some cbw
    ∧ ∀ ctx flat_args,
        backward c ctx flat_args
        = Ok (PyTuple (normalize_as_list (cbw (saved_tensors ctx ++ flat_args)))).
Proof.
  intros [->|(cfw & cbw & n & ->)]%reachable_closure Hne; [done|].
  exists cbw. split; [done|]. intros ctx flat_args.
  unfold backward. simpl. by rewrite map_id.
Qed.

(** A backward call on a wrapper that never ran forward fails. *)
Lemma backward_before_forward ctx flat_args :
  backward initial ctx flat_args = Raise TypeError.
Proof. done. Qed.
End wrapper_facts.

Lemma forward_returns_outputs_and_saves_rest_witness :
  (Example.forward Wrapper.initial (Wrapper.Context []) [Example.x; Example.k]).2
  = PyTuple [Example.x; Example.k]
  ∧ Wrapper.saved_tensors
      (Example.forward Wrapper.initial (Wrapper.Context []) [Example.x; Example.k]).1.2
    = [Example.x; Example.k]
  ∧ Wrapper.num_outs
      (Example.forward Wrapper.initial (Wrapper.Context []) [Example.x; Example.k]).1.1
    = Some 2.
Proof.
  destruct (forward_returns_outputs_and_saves_rest unit Example.autograd_grad
              Example.flat_fn Example.make_fx Example.partition_fn
              Example.fw_compiler Example.bw_compiler Example.builtin ∅ true
              Wrapper.initial (Wrapper.Context []) [Example.x; Example.k]
              (Wrapper.reach_initial _ _ _ _ _ _ _ _ _ _))
    as (first_args & [[_ ->]|Habsurd] & Hrun).
  - unfold Example.forward. rewrite Hrun. repeat split.
  - discriminate Habsurd.
Defined.

Lemma backward_runs_on_saved_then_gradients_witness :
  Wrapper.backward
    (Example.forward Wrapper.initial (Wrapper.Context []) [Example.x; Example.k]).1.1
    (Example.forward Wrapper.initial (Wrapper.Context []) [Example.x; Example.k]).1.2
    [Example.g; PyNone]
  = Ok (PyTuple [Example.x; Example.k; Example.g; PyNone]).
Proof.
  destruct (backward_runs_on_saved_then_gradients unit Example.autograd_grad
              Example.flat_fn Example.make_fx Example.partition_fn
              Example.fw_compiler Example.bw_compiler Example.builtin ∅ true
              Wrapper.initial (Wrapper.Context []) [Example.x; Example.k]
              [Example.g; PyNone]
              (Wrapper.reach_initial _ _ _ _ _ _ _ _ _ _))
    as (cfw & cbw & n & Hfw & Hbw & Hn & Hrun).
  injection Hfw as <-. injection Hbw as <-. injection Hn as <-.
  exact Hrun.
Defined.

(** ** The output-spec thunk *)

(** The class of a spec object is [TreeSpec] or [LeafSpec], never [tuple] or
    [list]. *)
Lemma type_of_spec_not_container s :
  Pytree.type_of s ∉ [Pytree.TyTuple; Pytree.TyList].
Proof.
  destruct s; simpl;
    (apply not_elem_of_cons; split; [done|]);
    (apply not_elem_of_cons; split; [done|]); apply not_elem_of_nil.
Qed.

Section thunk_facts.
Import Pytree.
Variable unflatten_fn : pytype → list pyval → option (list string) → result pyval.

(** Hence [set] leaves [is_simple] as it finds it. *)
Lemma set_keeps_is_simple self s : is_simple (set self s).1 = is_simple self.
Proof.
  unfold set. destruct (py_assert _); [|done].
  rewrite bool_decide_eq_false_2 by apply type_of_spec_not_container.
  simpl. by destruct (is_leaf s).
Qed.

(** A second [set] with the recorded spec changes nothing at all. *)
Lemma set_again_is_noop s : set (set fresh s).1 s = ((set fresh s).1, Ok tt).
Proof.
  unfold set, fresh. simpl.
  rewrite (bool_decide_eq_false_2 (type_of s ∈ _))
    by apply type_of_spec_not_container.
  simpl. destruct (is_leaf s) eqn:Hleaf; simpl;
    rewrite bool_decide_eq_true_2 by done; simpl; by rewrite ?Hleaf.
Qed.

(** C7: the spec of a thunk is written by the first [set] only.  On a thunk
    without a spec [set] succeeds and records its argument; on a thunk with
    a spec, [set] with an equal spec succeeds and the recorded spec stays,
    and [set] with another spec raises [AssertionError] and leaves the thunk
    as it was. *)
Theorem set_records_spec_once self s' :
  match spec self with
  | None => (set self s').2 = Ok tt ∧ spec (set self s').1 = Some s'
  | Some s =>
      if decide (s' = s)
      then (set self s').2 = Ok tt ∧ spec (set self s').1 = Some s
      else set self s' = (self, Raise AssertionError)
  end.
Proof.
  destruct self as [[s|] simple really]; simpl.
  - destruct (decide (s' = s)) as [->|Hne]; unfold set; simpl.
    + rewrite (bool_decide_eq_true_2 (Some s = Some s)) by done. simpl.
      by destruct (bool_decide _ && _), (is_leaf s).
    + rewrite (bool_decide_eq_false_2 (Some s = Some s')) by congruence. done.
  - unfold set. simpl. by destruct (bool_decide _ && _), (is_leaf s').
Qed.

(** C8: on the thunk that recorded [s], [unflatten] of a sequence with as
    many items as [s] has leaves gives what the general [tree_unflatten]
    gives, result or exception. *)
Theorem unflatten_agrees_with_tree_unflatten s x items :
  py_items x = Ok items →
  length items = num_leaves s →
  unflatten unflatten_fn (set fresh s).1 x = general_unflatten unflatten_fn s x.
Proof.
  intros Hitems Hlen. unfold unflatten, general_unflatten.
  rewrite set_keeps_is_simple. unfold set, fresh. simpl.
  rewrite (bool_decide_eq_false_2 (type_of s ∈ _))
    by apply type_of_spec_not_container.
  simpl. rewrite Hitems. unfold_result.
  destruct s as [|ty ctx cs]; simpl in *; [|done].
  by rewrite bool_decide_eq_true_2.
Qed.
End thunk_facts.

Lemma unflatten_agrees_with_tree_unflatten_witness :
  Pytree.unflatten Example.unflatten_fn
    (Pytree.set Pytree.fresh
       (Pytree.NodeSpec Pytree.TyList None [Pytree.LeafSpec; Pytree.LeafSpec])).1
    (PyTuple [Example.x; Example.k])
  = Ok (PyList [Example.x; Example.k])
  ∧ Pytree.unflatten Example.unflatten_fn
      (Pytree.set Pytree.fresh Pytree.LeafSpec).1 (PyTuple [Example.x])
    = Ok Example.x.
Proof.
  split.
  - exact (eq_trans
      (unflatten_agrees_with_tree_unflatten Example.unflatten_fn
         (Pytree.NodeSpec Pytree.TyList None [Pytree.LeafSpec; Pytree.LeafSpec])
         (PyTuple [Example.x; Example.k]) [Example.x; Example.k] eq_refl eq_refl)
      eq_refl).
  - exact (eq_trans
      (unflatten_agrees_with_tree_unflatten Example.unflatten_fn Pytree.LeafSpec
         (PyTuple [Example.x]) [Example.x] eq_refl eq_refl)
      eq_refl).
Defined.

(** * Further properties of the module *)

(** ** More on the argument splitter *)

Section split_shape.
Variable nums : list nat.

Lemma dynamic_from_sublist l : ∀ i, sublist (dynamic_from nums i l) l.
Proof.
  induction l as [|a r IH]; intros i; simpl; [constructor|].
  case_bool_decide; [apply sublist_cons|apply sublist_skip]; apply IH.
Qed.

Lemma static_from_sublist l : ∀ i, sublist (static_from nums i l) l.
Proof.
  induction l as [|a r IH]; intros i; simpl; [constructor|].
  case_bool_decide; [apply sublist_skip|apply sublist_cons]; apply IH.
Qed.

Lemma split_from_permutation l : ∀ i,
  dynamic_from nums i l ++ static_from nums i l ≡ₚ l.
Proof.
  induction l as [|a r IH]; intros i; simpl; [done|].
  case_bool_decide; simpl.
  - by rewrite <- Permutation_middle, IH.
  - by rewrite IH.
Qed.

Lemma split_from_app l1 l2 : ∀ i,
  dynamic_from nums i (l1 ++ l2)
  = dynamic_from nums i l1 ++ dynamic_from nums (i + length l1) l2
  ∧ static_from nums i (l1 ++ l2)
    = static_from nums i l1 ++ static_from nums (i + length l1) l2.
Proof.
  induction l1 as [|a r IH]; intros i; simpl.
  - by rewrite Nat.add_0_r.
  - destruct (IH (S i)) as [Hd Hs].
    replace (i + S (length r)) with (S i + length r) by lia.
    case_bool_decide; simpl; by rewrite Hd, Hs.
Qed.

(** A block of positions none of which is static, and one all of which are. *)
Lemma split_block_dynamic l : ∀ i,
  (∀ j, i ≤ j < i + length l → j ∉ nums) →
  dynamic_from nums i l = l ∧ static_from nums i l = [].
Proof.
  induction l as [|a r IH]; intros i Hout; simpl; [done|].
  rewrite bool_decide_eq_false_2 by (apply Hout; simpl; lia).
  destruct (IH (S i)) as [-> ->]; [|done].
  intros j Hj. apply Hout. simpl. lia.
Qed.

Lemma split_block_static l : ∀ i,
  (∀ j, i ≤ j < i + length l → j ∈ nums) →
  dynamic_from nums i l = [] ∧ static_from nums i l = l.
Proof.
  induction l as [|a r IH]; intros i Hin; simpl; [done|].
  rewrite bool_decide_eq_true_2 by (apply Hin; simpl; lia).
  destruct (IH (S i)) as [-> ->]; [|done].
  intros j Hj. apply Hin. simpl. lia.
Qed.

(** The static arguments are as many as the positions listed in [nums]. *)
Lemma static_from_length l : ∀ i,
  length (static_from nums i l)
  = length (filter (λ j, j ∈ nums) (seq i (length l))).
Proof.
  induction l as [|a r IH]; intros i; simpl; [done|].
  rewrite filter_cons. case_bool_decide as Hi.
  - rewrite decide_True by done. simpl. by rewrite IH.
  - rewrite decide_False by done. by rewrite IH.
Qed.
End split_shape.

(** [nums] lists each position of [0 .. n-1] it lists once, and nothing else,
    exactly when it has as many entries as positions it selects. *)
Lemma selected_positions_length nums n :
  length (filter (λ j, j ∈ nums) (seq 0 n)) = length nums
  ↔ NoDup nums ∧ Forall (λ j, j < n) nums.
Proof.
  set (sel := filter (λ j, j ∈ nums) (seq 0 n)).
  assert (Hnd : NoDup sel) by apply NoDup_filter, NoDup_seq.
  assert (Hsub : sel ⊆+ nums).
  { apply NoDup_submseteq; [done|]. intros j Hj.
    by apply list_elem_of_filter in Hj as [? _]. }
  split.
  - intros Hlen.
    assert (Hperm : sel ≡ₚ nums).
    { apply submseteq_length_Permutation; [done|lia]. }
    split; [by rewrite <- Hperm|].
    rewrite <- Hperm. apply Forall_forall. intros j Hj.
    apply list_elem_of_filter in Hj as [_ Hj]. apply elem_of_seq in Hj. lia.
  - intros [Hnums Hrange]. apply Permutation_length.
    apply NoDup_Permutation; [done..|]. intros j. unfold sel.
    rewrite list_elem_of_filter, elem_of_seq.
    rewrite Forall_forall in Hrange. split; [tauto|].
    intros Hj. split; [done|]. specialize (Hrange j Hj). lia.
Qed.

(** X1: the split keeps the relative order on both sides, loses and
    duplicates nothing, hashes the static arguments one by one, and makes
    static exactly as many arguments as there are positions listed. *)
Theorem split_keeps_order_and_content py_hash args nums :
  let '(tensor_args, static_args, static_args_hashed) :=
    Splitter.filter_tensor_and_static_args py_hash args nums in
  sublist tensor_args args
  ∧ sublist static_args args
  ∧ tensor_args ++ static_args ≡ₚ args
  ∧ static_args_hashed = map py_hash static_args
  ∧ length static_args
    = length (filter (λ j, j ∈ nums) (seq 0 (length args))).
Proof.
  rewrite filter_closed_form.
  auto using dynamic_from_sublist, static_from_sublist,
    split_from_permutation, static_from_length.
Qed.

(** X2: static indices that are no position of [args] (among them: no
    static index at all) are ignored without an error: every argument is
    dynamic and nothing is hashed. *)
Theorem split_ignores_indices_out_of_range py_hash args nums :
  Forall (λ j, length args ≤ j) nums →
  Splitter.filter_tensor_and_static_args py_hash args nums = (args, [], []).
Proof.
  intros Hout. rewrite filter_closed_form.
  destruct (split_block_dynamic nums args 0) as [-> ->]; [|done].
  intros j Hj Hin. rewrite Forall_forall in Hout. specialize (Hout j Hin). lia.
Qed.

Lemma split_ignores_indices_out_of_range_witness :
  Splitter.filter_tensor_and_static_args const_hash [Example.x; Example.k] [2; 7]
  = ([Example.x; Example.k], [], []).
Proof.
  apply (split_ignores_indices_out_of_range const_hash [Example.x; Example.k] [2; 7]).
  repeat constructor.
Defined.

(** X3: when the lengths agree, [rearrange] terminates within
    [len(tensor_args) + len(static_args)] iterations of each loop, and its
    result is [static_args[:k] + tensor_args + static_args[k:]], [k] being
    the number of leading entries of [static_argnums] equal to [0]. *)
Theorem rearrange_result t s nums fuel :
  length s = length nums →
  length t + length s ≤ fuel →
  Splitter.rearrange t s nums fuel
  = Some (Ok (take (run_length 0 nums) s ++ t ++ drop (run_length 0 nums) s)).
Proof. apply rearrange_closed_form. Qed.

Lemma rearrange_result_witness :
  Splitter.rearrange [Example.x; Example.g] [PyInt 1; PyInt 2] [0; 3] 4
  = Some (Ok [PyInt 1; Example.x; Example.g; PyInt 2]).
Proof.
  apply (rearrange_result [Example.x; Example.g] [PyInt 1; PyInt 2] [0; 3] 4);
    simpl; lia.
Defined.

(** X4: when the lengths agree, [rearrange] returns every tensor argument
    and every static argument exactly once, the tensors in their order and
    the statics in theirs. *)
Theorem rearrange_returns_each_argument_once t s nums fuel :
  length s = length nums →
  length t + length s ≤ fuel →
  ∃ out,
    Splitter.rearrange t s nums fuel = Some (Ok out)
    ∧ out ≡ₚ t ++ s
    ∧ sublist t out
    ∧ sublist s out.
Proof.
  intros Hlen Hfuel. eexists. split; [by apply rearrange_closed_form|].
  set (k := run_length 0 nums). repeat split.
  - rewrite app_assoc, (Permutation_app_comm (take k s) t), <- app_assoc.
    by rewrite take_drop.
  - apply sublist_inserts_l, sublist_inserts_r. done.
  - rewrite <- (take_drop k s) at 1.
    apply sublist_app; [done|]. by apply sublist_inserts_l.
Qed.

Lemma rearrange_returns_each_argument_once_witness :
  ∃ out,
    Splitter.rearrange [Example.x; Example.g] [PyInt 1; PyInt 2] [1; 2] 4
    = Some (Ok out)
    ∧ out ≡ₚ [Example.x; Example.g] ++ [PyInt 1; PyInt 2]
    ∧ sublist [Example.x; Example.g] out
    ∧ sublist [PyInt 1; PyInt 2] out.
Proof.
  apply (rearrange_returns_each_argument_once
           [Example.x; Example.g] [PyInt 1; PyInt 2] [1; 2] 4); simpl; lia.
Defined.

(** X5: splitting and then rearranging checks the static indices: the
    assertion of [rearrange] passes exactly when [static_argnums] lists
    positions of [args] without repetition; otherwise the call raises
    [AssertionError]. *)
Theorem split_then_rearrange_checks_indices py_hash args nums fuel :
  length args ≤ fuel →
  let '(tensor_args, static_args, _) :=
    Splitter.filter_tensor_and_static_args py_hash args nums in
  Splitter.rearrange tensor_args static_args nums fuel
  = if decide (NoDup nums ∧ Forall (λ j, j < length args) nums)
    then Some (Ok (take (run_length 0 nums) static_args ++ tensor_args
                   ++ drop (run_length 0 nums) static_args))
    else Some (Raise AssertionError).
Proof.
  intros Hfuel. rewrite filter_closed_form.
  pose proof (selected_positions_length nums (length args)) as Hsel.
  rewrite <- static_from_length in Hsel.
  destruct (decide _) as [Hok|Hbad].
  - apply rearrange_closed_form; [by apply Hsel|].
    rewrite <- length_app, split_from_permutation. done.
  - apply rearrange_length_mismatch. by rewrite Hsel.
Qed.

Lemma split_then_rearrange_checks_indices_witness :
  Splitter.rearrange [Example.x; Example.k] [] [2] 2 = Some (Raise AssertionError)
  ∧ Splitter.rearrange [Example.k] [Example.x] [0; 0] 2
    = Some (Raise AssertionError).
Proof.
  split.
  - exact (split_then_rearrange_checks_indices const_hash
             [Example.x; Example.k] [2] 2 (le_n 2)).
  - exact (split_then_rearrange_checks_indices const_hash
             [Example.x; Example.k] [0; 0] 2 (le_n 2)).
Defined.

Lemma run_length_zero_seq m len : run_length 0 (seq (S m) len) = 0.
Proof. by destruct len. Qed.

(** X6: when the static positions are the last ones, [rearrange] undoes the
    split. *)
Theorem rearrange_inverts_trailing_statics py_hash pre suf fuel :
  length pre + length suf ≤ fuel →
  let nums := seq (length pre) (length suf) in
  let '(tensor_args, static_args, _) :=
    Splitter.filter_tensor_and_static_args py_hash (pre ++ suf) nums in
  tensor_args = pre
  ∧ static_args = suf
  ∧ Splitter.rearrange tensor_args static_args nums fuel = Some (Ok (pre ++ suf)).
Proof.
  intros Hfuel nums. rewrite filter_closed_form.
  destruct (split_from_app nums pre suf 0) as [-> ->]. simpl.
  destruct (split_block_dynamic nums pre 0) as [-> ->].
  { intros j Hj. unfold nums. rewrite elem_of_seq. lia. }
  destruct (split_block_static nums suf (length pre)) as [-> ->].
  { intros j Hj. unfold nums. rewrite elem_of_seq. lia. }
  rewrite app_nil_r. simpl. repeat split.
  rewrite rearrange_closed_form by (unfold nums; rewrite ?length_seq; lia).
  destruct pre as [|a pre]; simpl.
  - by rewrite take_drop.
  - unfold nums. simpl. by rewrite run_length_zero_seq.
Qed.

Lemma rearrange_inverts_trailing_statics_witness :
  Splitter.rearrange [Example.x; Example.g] [Example.k] [2] 3
  = Some (Ok [Example.x; Example.g; Example.k]).
Proof.
  exact (proj2 (proj2 (rearrange_inverts_trailing_statics const_hash
           [Example.x; Example.g] [Example.k] 3 (le_n 3)))).
Defined.

(** X7: the same holds when the first argument is static as well. *)
Theorem rearrange_inverts_first_and_trailing_statics py_hash a mid suf fuel :
  S (length mid + length suf) ≤ fuel →
  let nums := 0 :: seq (S (length mid)) (length suf) in
  let '(tensor_args, static_args, _) :=
    Splitter.filter_tensor_and_static_args py_hash (a :: mid ++ suf) nums in
  tensor_args = mid
  ∧ static_args = a :: suf
  ∧ Splitter.rearrange tensor_args static_args nums fuel
    = Some (Ok (a :: mid ++ suf)).
Proof.
  intros Hfuel nums. rewrite filter_closed_form. simpl.
  destruct (split_from_app nums mid suf 1) as [-> ->].
  destruct (split_block_dynamic nums mid 1) as [-> ->].
  { intros j Hj. unfold nums. rewrite elem_of_cons, elem_of_seq. lia. }
  destruct (split_block_static nums suf (1 + length mid)) as [-> ->].
  { intros j Hj. unfold nums. rewrite elem_of_cons, elem_of_seq. lia. }
  rewrite app_nil_r. simpl. repeat split.
  rewrite rearrange_closed_form
    by (unfold nums; simpl; rewrite ?length_seq; lia).
  unfold nums. simpl. by rewrite run_length_zero_seq.
Qed.

Lemma rearrange_inverts_first_and_trailing_statics_witness :
  Splitter.rearrange [Example.x; Example.g] [PyInt 1; Example.k] [0; 3] 4
  = Some (Ok [PyInt 1; Example.x; Example.g; Example.k]).
Proof.
  exact (proj2 (proj2 (rearrange_inverts_first_and_trailing_statics const_hash
           (PyInt 1) [Example.x; Example.g] [Example.k] 4 (le_n 4)))).
Defined.

(** ** The entry point's handling of [static_argnums] *)

Lemma Sorted_le_seq m len : Sorted (≤) (seq m len).
Proof.
  revert m. induction len as [|len IH]; intros m; simpl; [constructor|].
  constructor; [apply IH|]. destruct len; simpl; constructor. lia.
Qed.

(** X8: the normalised [static_argnums] is never an empty list: it is
    [None] for [None] and for an empty sequence, the singleton for an
    integer, and otherwise the ascending rearrangement of the sequence,
    repeated entries kept. *)
Theorem normalize_static_argnums_result a :
  match AotFunction.normalize_static_argnums a with
  | None => a = AotFunction.ArgNone ∨ a = AotFunction.ArgSeq []
  | Some nums =>
      nums ≠ []
      ∧ Sorted (≤) nums
      ∧ match a with
        | AotFunction.ArgNone => False
        | AotFunction.ArgInt n => nums = [n]
        | AotFunction.ArgSeq l => nums ≡ₚ l
        end
  end.
Proof.
  destruct a as [|n|l]; simpl.
  - by left.
  - repeat split; [done|repeat constructor].
  - case_bool_decide as Hl.
    + right. by destruct l.
    + repeat split.
      * intros Hnil. apply Hl.
        by rewrite <- (merge_sort_Permutation (≤) l), Hnil.
      * apply (Sorted_merge_sort (≤)).
      * apply merge_sort_Permutation.
Qed.

(** X9: with the trailing positions given as [static_argnums], in any
    order, the arguments [flat_fn] rebuilds are the ones the compiled
    function was called with; an empty sequence makes nothing static. *)
Theorem static_trailing_arguments_round_trip py_hash pre suf l fuel :
  l ≡ₚ seq (length pre) (length suf) →
  length pre + length suf ≤ fuel →
  let static_argnums :=
    AotFunction.normalize_static_argnums (AotFunction.ArgSeq l) in
  let '(tensor_args, static_args, static_args_hashed) :=
    AotFunction.split_args py_hash static_argnums (pre ++ suf) in
  tensor_args = pre
  ∧ static_args = suf
  ∧ static_args_hashed = map py_hash suf
  ∧ AotFunction.rebuild_args static_argnums tensor_args static_args fuel
    = Some (Ok (pre ++ suf)).
Proof.
  intros Hperm Hfuel. cbn zeta.
  unfold AotFunction.normalize_static_argnums.
  assert (Hlen : length l = length suf).
  { by rewrite Hperm, length_seq. }
  case_bool_decide as Hl;
    unfold AotFunction.split_args, AotFunction.rebuild_args.
  - destruct suf; [|simpl in *; lia]. by rewrite app_nil_r.
  - assert (Hsort : merge_sort (≤) l = seq (length pre) (length suf)).
    { apply (Sorted_unique (≤)).
      - apply (Sorted_merge_sort (≤)).
      - apply Sorted_le_seq.
      - by rewrite merge_sort_Permutation. }
    rewrite Hsort.
    pose proof (rearrange_inverts_trailing_statics py_hash pre suf fuel Hfuel)
      as Hround.
    cbn zeta in Hround. rewrite filter_closed_form in Hround |- *.
    destruct Hround as (-> & -> & Hround). repeat split. exact Hround.
Qed.

Lemma static_trailing_arguments_round_trip_witness :
  AotFunction.rebuild_args
    (AotFunction.normalize_static_argnums (AotFunction.ArgSeq [2; 1]))
    [Example.x] [Example.k; Example.g] 3
  = Some (Ok [Example.x; Example.k; Example.g]).
Proof.
  exact (proj2 (proj2 (proj2 (static_trailing_arguments_round_trip const_hash
           [Example.x] [Example.k; Example.g] [2; 1] 3
           (perm_swap 1 2 []) (le_n 3))))).
Defined.

(** ** More on the joint function *)

Section joint_extras.
Import Joint.
Variable autograd_grad : list pyval → list pyval → list pyval → list pyval.
Variable fn : list pyval → pyval.

Lemma next_or_none_short primals : ∀ it,
  length it < length (filter (λ p, is_grad_tensor p) primals) →
  next_or_none it (map is_grad_tensor primals) = Raise StopIteration.
Proof.
  induction primals as [|q r IH]; intros it Hlen; simpl in *; [lia|].
  rewrite filter_cons in Hlen. destruct (is_grad_tensor q); simpl in *.
  - destruct it as [|g it]; [done|]. simpl in Hlen.
    by rewrite IH by lia.
  - by rewrite IH by lia.
Qed.

Lemma next_or_none_take primals : ∀ it,
  next_or_none (take (length (filter (λ p, is_grad_tensor p) primals)) it)
               (map is_grad_tensor primals)
  = next_or_none it (map is_grad_tensor primals).
Proof.
  induction primals as [|q r IH]; intros it; simpl; [done|].
  rewrite filter_cons. destruct (is_grad_tensor q); simpl.
  - destruct it as [|g it]; simpl; [done|]. by rewrite IH.
  - by rewrite IH.
Qed.

Lemma next_or_none_shape primals : ∀ it grads,
  next_or_none it (map is_grad_tensor primals) = Ok grads →
  length grads = length primals
  ∧ ∀ i p, primals !! i = Some p → is_grad_tensor p = false →
      grads !! i = Some PyNone.
Proof.
  induction primals as [|q r IH]; intros it grads; simpl.
  - intros [= <-]. by split.
  - destruct (is_grad_tensor q) eqn:Hq.
    + destruct it as [|g it]; [done|].
      destruct (next_or_none it (map is_grad_tensor r)) as [rest|] eqn:Hrest;
        unfold_result; [|done].
      intros [= <-]. destruct (IH it rest Hrest) as [Hl Hpos].
      split; [simpl; lia|]. intros [|i] p Hp Hng; simpl in *.
      * congruence.
      * by apply Hpos with p.
    + destruct (next_or_none it (map is_grad_tensor r)) as [rest|] eqn:Hrest;
        unfold_result; [|done].
      intros [= <-]. destruct (IH it rest Hrest) as [Hl Hpos].
      split; [simpl; lia|]. intros [|i] p Hp Hng; simpl in *; [done|].
      by apply Hpos with p.
Qed.

(** X10: whatever the arguments, the joint function invokes the autodiff
    primitive at most once; a call it makes has as inputs the primals that
    are tensors requiring gradient, at least one, as outputs only tensors
    requiring gradient, one [grad_outputs] entry per output, and
    [allow_unused] set. *)
Theorem autodiff_call_shape primals tangents :
  let log := (joint_forward_backward autograd_grad fn primals tangents).1 in
  length log ≤ 1
  ∧ Forall (λ c,
      gc_inputs c = filter (λ p, is_grad_tensor p) primals
      ∧ gc_inputs c ≠ []
      ∧ Forall (λ o, is_grad_tensor o = true) (gc_outputs c)
      ∧ length (gc_outputs c) = length (gc_grad_outputs c)
      ∧ gc_allow_unused c = true) log.
Proof.
  unfold joint_forward_backward. rewrite primal_loop. simpl.
  unfold lift, mbind, eff_bind. simpl.
  destruct (py_items (fn primals)) as [items|]; simpl; [|auto].
  case_bool_decide; simpl; [|auto]. rewrite out_loop. simpl.
  case_bool_decide as Hne; unfold call_autograd, mret, eff_ret; simpl.
  - set (call := GradCall _ _ _ _).
    assert (Hcall :
      gc_inputs call = filter (λ p, is_grad_tensor p) primals
      ∧ gc_inputs call ≠ []
      ∧ Forall (λ o, is_grad_tensor o = true) (gc_outputs call)
      ∧ length (gc_outputs call) = length (gc_grad_outputs call)
      ∧ gc_allow_unused call = true).
    { simpl. split_and!; try done.
      - apply Forall_fmap, Forall_forall. intros [o tg] Ho.
        apply list_elem_of_filter in Ho as [Ho _]. simpl in *.
        by apply Is_true_true.
      - by rewrite !length_fmap. }
    match goal with
    | |- context [next_or_none ?it ?fl] => destruct (next_or_none it fl)
    end; simpl; (split; [lia|by apply Forall_singleton]).
  - match goal with
    | |- context [next_or_none ?it ?fl] => destruct (next_or_none it fl)
    end; simpl; auto.
Qed.

(** X11: when the primitive returns fewer values than it was given inputs,
    the joint function raises [StopIteration], after the one invocation. *)
Theorem joint_too_few_gradients primals tangents out_items :
  py_items (fn primals) = Ok out_items →
  length tangents = length out_items →
  let grad_primals := filter (λ p, is_grad_tensor p) primals in
  let needed :=
    filter (λ ot : pyval * pyval, is_grad_tensor ot.1) (zip out_items tangents) in
  length (autograd_grad needed.*1 grad_primals needed.*2) < length grad_primals →
  joint_forward_backward autograd_grad fn primals tangents
  = ([GradCall needed.*1 grad_primals needed.*2 true], Raise StopIteration).
Proof.
  intros Hitems Hlen grad_primals needed Hshort.
  unfold joint_forward_backward. rewrite primal_loop. simpl.
  rewrite Hitems. unfold lift, mbind, eff_bind. simpl.
  rewrite bool_decide_eq_true_2 by done. simpl. rewrite out_loop. simpl.
  fold grad_primals needed.
  rewrite bool_decide_eq_true_2; last first.
  { intros Hnil. rewrite Hnil in Hshort. simpl in Hshort. lia. }
  unfold call_autograd. simpl. by rewrite next_or_none_short.
Qed.

(** X12: of the values the primitive returns, only the first
    [len(grad_primals)] are read: cutting its result to the number of its
    inputs changes nothing. *)
Theorem joint_ignores_surplus_gradients primals tangents :
  joint_forward_backward autograd_grad fn primals tangents
  = joint_forward_backward
      (λ outputs inputs grad_outputs,
         take (length inputs) (autograd_grad outputs inputs grad_outputs))
      fn primals tangents.
Proof.
  unfold joint_forward_backward. rewrite primal_loop. simpl.
  unfold lift, mbind, eff_bind. simpl.
  destruct (py_items (fn primals)) as [items|]; simpl; [|done].
  case_bool_decide; simpl; [|done]. rewrite out_loop. simpl.
  case_bool_decide; unfold call_autograd, mret, eff_ret; simpl; [|done].
  by rewrite next_or_none_take.
Qed.

(** X13: whenever the joint function returns, whatever the primitive did,
    it returns the output of [fn] itself and one entry per primal, and the
    entry of a primal that is not a tensor requiring gradient is [None]. *)
Theorem joint_result_shape primals tangents outs grads :
  (joint_forward_backward autograd_grad fn primals tangents).2 = Ok (outs, grads) →
  outs = fn primals
  ∧ length grads = length primals
  ∧ ∀ i p, primals !! i = Some p → is_grad_tensor p = false →
      grads !! i = Some PyNone.
Proof.
  unfold joint_forward_backward. rewrite primal_loop. simpl.
  unfold lift, mbind, eff_bind. simpl.
  destruct (py_items (fn primals)) as [items|]; simpl; [|done].
  case_bool_decide; simpl; [|done]. rewrite out_loop. simpl.
  case_bool_decide; unfold call_autograd, mret, eff_ret; simpl;
    match goal with
    | |- context [next_or_none ?it ?fl] =>
        destruct (next_or_none it fl) as [gs|] eqn:Hgs
    end; simpl; try done;
    intros [= <- <-]; split; try done;
    by apply next_or_none_shape in Hgs.
Qed.
End joint_extras.

Lemma joint_too_few_gradients_witness :
  Joint.joint_forward_backward (λ _ _ _, []) Example.fn
    [Example.x; Example.k] [Example.g; PyNone]
  = ([Joint.GradCall [Example.x] [Example.x] [Example.g] true],
     Raise StopIteration).
Proof.
  apply (joint_too_few_gradients (λ _ _ _, []) Example.fn
           [Example.x; Example.k] [Example.g; PyNone] [Example.x; Example.k]
           eq_refl eq_refl).
  simpl. lia.
Defined.

Lemma joint_result_shape_witness :
  ∃ grads,
    (Joint.joint_forward_backward Example.autograd_grad Example.fn
       [Example.x; Example.k] [Example.g; PyNone]).2
    = Ok (PyList [Example.x; Example.k], grads)
    ∧ length grads = 2
    ∧ grads !! 1 = Some PyNone.
Proof.
  eexists. split; [reflexivity|].
  destruct (joint_result_shape Example.autograd_grad Example.fn
              [Example.x; Example.k] [Example.g; PyNone] _ _ eq_refl)
    as (_ & Hlen & Hpos).
  split; [exact Hlen|]. exact (Hpos 1 Example.k eq_refl eq_refl).
Defined.

(** ** More on the differentiable wrapper *)

(** Induction on values, through the lists inside them. *)
Lemma pyval_nested_ind (P : pyval → Prop) :
  P PyNone →
  (∀ z, P (PyInt z)) →
  (∀ t, P (PyTensor t)) →
  (∀ l, Forall P l → P (PyList l)) →
  (∀ l, Forall P l → P (PyTuple l)) →
  ∀ v, P v.
Proof.
  intros Hnone Hint Htensor Hlist Htuple. fix IH 1.
  intros [|z|t|l|l]; [done..| |].
  - apply Hlist. induction l as [|a l IHl]; constructor; [apply IH|exact IHl].
  - apply Htuple. induction l as [|a l IHl]; constructor; [apply IH|exact IHl].
Qed.

(** X14: detaching the output of [flat_fn] leaves no tensor that requires
    gradient at any depth, does nothing when done again, and keeps the
    number of outputs. *)
Theorem detach_tree_detaches v :
  grad_free (detach_tree v) = true
  ∧ detach_tree (detach_tree v) = detach_tree v
  ∧ length (normalize_as_list (detach_tree v)) = length (normalize_as_list v).
Proof.
  split_and!.
  - induction v as [| | |l IH|l IH] using pyval_nested_ind; simpl; try done;
      apply Is_true_true, forallb_True, Forall_fmap;
      (eapply Forall_impl; [exact IH|]);
      intros x Hx; simpl; by apply Is_true_true.
  - induction v as [| | |l IH|l IH] using pyval_nested_ind; simpl; try done;
      f_equal; rewrite <- list_fmap_compose; apply Forall_fmap_ext_1;
      (eapply Forall_impl; [exact IH|]); done.
  - destruct v; simpl; by rewrite ?length_map.
Qed.

Section wrapper_extras.
Import Wrapper.
Variable Graph : Type.
Variable autograd_grad : list pyval → list pyval → list pyval → list pyval.
Variable flat_fn : bool → list pyval → pyval.
Variable make_fx :
  (list pyval → list pyval → Joint.eff (pyval * list pyval)) →
  gmap string Decomp.decomposition → list pyval * pyval → Graph.
Variable partition_fn : Graph → list pyval * pyval → Graph * Graph.
Variables fw_compiler bw_compiler : Graph → list pyval → executable.
Variables builtin decompositions : gmap string Decomp.decomposition.
Variable grad_state : bool.

Local Abbreviation fwd :=
  (forward Graph autograd_grad flat_fn make_fx partition_fn fw_compiler
     bw_compiler builtin decompositions grad_state).
Local Abbreviation live :=
  (reachable Graph autograd_grad flat_fn make_fx partition_fn fw_compiler
     bw_compiler builtin decompositions grad_state).

(** X15: a forward call loses no result of the executable it runs, which
    is the one compiled by this call on a wrapper not compiled yet and the
    stored one otherwise: the returned outputs followed by the saved values
    are its results, in order.  The number of results is not checked: when
    there are no more than [num_outs], all of them are returned and nothing
    is saved. *)
Theorem forward_splits_without_loss ctx flat_tensor_args :
  (let out := detach_tree (flat_fn grad_state flat_tensor_args) in
   let n := match out with PyList l | PyTuple l => length l | _ => 1 end in
   let fx_g :=
     make_fx (joint_forward_backward autograd_grad flat_fn grad_state)
             (aot_decompositions builtin decompositions)
             (flat_tensor_args, out) in
   let cfw :=
     fw_compiler (partition_fn fx_g (flat_tensor_args, out)).1
       flat_tensor_args in
   let r := fwd initial ctx flat_tensor_args in
   ∃ outs,
     r.2 = PyTuple outs
     ∧ outs ++ saved_tensors r.1.2 = normalize_as_list (cfw flat_tensor_args)
     ∧ length outs = n `min` length (normalize_as_list (cfw flat_tensor_args))
     ∧ (length (normalize_as_list (cfw flat_tensor_args)) ≤ n →
          saved_tensors r.1.2 = []))
  ∧ ∀ cfw cbw n,
      let r := fwd (Closure (Some cfw) (Some cbw) (Some n)) ctx flat_tensor_args in
      ∃ outs,
        r.2 = PyTuple outs
        ∧ outs ++ saved_tensors r.1.2 = normalize_as_list (cfw flat_tensor_args)
        ∧ length outs = n `min` length (normalize_as_list (cfw flat_tensor_args))
        ∧ (length (normalize_as_list (cfw flat_tensor_args)) ≤ n →
             saved_tensors r.1.2 = []).
Proof.
  split.
  - cbn zeta. rewrite first_forward. simpl. eexists.
    split_and!; [done|apply take_drop|apply length_take|].
    intros Hle. by apply drop_ge.
  - intros cfw cbw n. unfold forward. simpl. eexists.
    split_and!; [done|apply take_drop|apply length_take|].
    intros Hle. by apply drop_ge.
Qed.

(** X16: compilation happens on the first forward call only.  The first
    call stores the executables compiled from the graph traced on its own
    arguments, with its output count; a second call leaves the closure as it
    is and runs that forward executable on its arguments, splitting the
    results at the output count of the first call. *)
Theorem forward_compiles_once ctx1 ctx2 args1 args2 :
  let out := detach_tree (flat_fn grad_state args1) in
  let n := match out with PyList l | PyTuple l => length l | _ => 1 end in
  let fx_g :=
    make_fx (joint_forward_backward autograd_grad flat_fn grad_state)
            (aot_decompositions builtin decompositions) (args1, out) in
  let cfw := fw_compiler (partition_fn fx_g (args1, out)).1 args1 in
  let cbw :=
    bw_compiler (partition_fn fx_g (args1, out)).2
      (drop n (normalize_as_list (cfw args1))
       ++ take n (normalize_as_list (cfw args1))) in
  let first := fwd initial ctx1 args1 in
  let second := fwd first.1.1 ctx2 args2 in
  first.1.1 = Closure (Some cfw) (Some cbw) (Some n)
  ∧ second
    = (Closure (Some cfw) (Some cbw) (Some n),
       Context (drop n (normalize_as_list (cfw args2))),
       PyTuple (take n (normalize_as_list (cfw args2)))).
Proof.
  cbn zeta. by rewrite first_forward.
Qed.

(** X17: the saved values travel with the context of their forward call.
    After two forward calls, the backward call of either one runs the one
    backward executable on the values its own forward call saved, followed
    by the output gradients. *)
Theorem backward_pairs_with_its_forward ctx1 ctx2 args1 args2 flat_args :
  let first := fwd initial ctx1 args1 in
  let second := fwd first.1.1 ctx2 args2 in
  ∃ cfw cbw n,
    compiled_fw second.1.1 = Some cfw
    ∧ compiled_bw second.1.1 = Some cbw
    ∧ num_outs second.1.1 = Some n
    ∧ backward second.1.1 first.1.2 flat_args
      = Ok (PyTuple (normalize_as_list
              (cbw (drop n (normalize_as_list (cfw args1)) ++ flat_args))))
    ∧ backward second.1.1 second.1.2 flat_args
      = Ok (PyTuple (normalize_as_list
              (cbw (drop n (normalize_as_list (cfw args2)) ++ flat_args)))).
Proof.
  cbn zeta. rewrite first_forward. unfold forward, backward. simpl.
  rewrite map_id. eexists _, _, _. split_and!; done.
Qed.

(** X18: the first forward call compiles the backward half of the partition
    with, as sample arguments, the values it saves followed by the outputs
    it returns. *)
Theorem backward_compiled_on_saved_then_outputs ctx flat_tensor_args :
  let out := detach_tree (flat_fn grad_state flat_tensor_args) in
  let fx_g :=
    make_fx (joint_forward_backward autograd_grad flat_fn grad_state)
            (aot_decompositions builtin decompositions)
            (flat_tensor_args, out) in
  let r := fwd initial ctx flat_tensor_args in
  ∃ outs,
    r.2 = PyTuple outs
    ∧ compiled_bw r.1.1
      = Some (bw_compiler (partition_fn fx_g (flat_tensor_args, out)).2
                (saved_tensors r.1.2 ++ outs)).
Proof.
  cbn zeta. rewrite first_forward. simpl. by eexists.
Qed.
End wrapper_extras.

Lemma forward_splits_without_loss_witness :
  ∃ outs,
    (Example.forward Wrapper.initial (Wrapper.Context []) [Example.x; Example.k]).2
    = PyTuple outs
    ∧ outs
      ++ Wrapper.saved_tensors
           (Example.forward Wrapper.initial (Wrapper.Context [])
              [Example.x; Example.k]).1.2
      = [Example.x; Example.k; Example.x; Example.k].
Proof.
  destruct (proj1 (forward_splits_without_loss unit Example.autograd_grad
              Example.flat_fn Example.make_fx Example.partition_fn
              Example.fw_compiler Example.bw_compiler Example.builtin ∅ true
              (Wrapper.Context []) [Example.x; Example.k]))
    as (outs & Hret & Hall & _).
  exists outs. split; [exact Hret|exact Hall].
Defined.

(** ** More on the output-spec thunk *)

Lemma set_other_spec_fails self s s' :
  Pytree.spec self = Some s → s' ≠ s →
  Pytree.set self s' = (self, Raise AssertionError).
Proof.
  intros Hspec Hne. unfold Pytree.set. rewrite Hspec. simpl.
  by rewrite bool_decide_eq_false_2 by congruence.
Qed.

Lemma set_fresh_spec s : Pytree.spec (Pytree.set Pytree.fresh s).1 = Some s.
Proof.
  unfold Pytree.set, Pytree.fresh. simpl.
  by destruct (bool_decide _ && _), (Pytree.is_leaf s).
Qed.

(** X19: on a new thunk the first [set] decides: whatever specs the later
    calls pass, equal or not, the thunk stays as the first call left it. *)
Theorem first_set_wins s specs :
  set_all Pytree.fresh (s :: specs) = (Pytree.set Pytree.fresh s).1.
Proof.
  unfold set_all. cbn [foldl].
  pose proof (set_again_is_noop s) as Hsame.
  pose proof (set_fresh_spec s) as Hspec.
  generalize dependent (Pytree.set Pytree.fresh s).1. intros t Hsame Hspec.
  induction specs as [|s' specs IH]; [done|]. cbn [foldl].
  destruct (decide (s' = s)) as [->|Hne].
  - by rewrite Hsame.
  - by rewrite (set_other_spec_fails t s s' Hspec Hne).
Qed.

(** X20: no run of [set] calls changes [is_simple]: the test that guards
    it compares the class of the spec object with [tuple] and [list].  On a
    new thunk it stays [None], whatever specs are recorded. *)
Theorem set_never_enables_simple_path self specs :
  Pytree.is_simple (set_all self specs) = Pytree.is_simple self
  ∧ Pytree.is_simple (set_all Pytree.fresh specs) = None.
Proof.
  assert (Hkeep : ∀ t, Pytree.is_simple (set_all t specs) = Pytree.is_simple t).
  { unfold set_all. induction specs as [|s specs IH]; intros t; simpl; [done|].
    by rewrite IH, set_keeps_is_simple. }
  split; [apply Hkeep|]. by rewrite Hkeep.
Qed.

Section thunk_extras.
Variable unflatten_fn :
  Pytree.pytype → list pyval → option (list string) → result pyval.

(** X21: once a leaf spec is recorded, [unflatten] returns the first item
    of any non-empty sequence and ignores the others, where the general
    [tree_unflatten] rejects a sequence of more than one item. *)
Theorem leaf_path_takes_first_item x v rest :
  py_items x = Ok (v :: rest) →
  Pytree.unflatten unflatten_fn (Pytree.set Pytree.fresh Pytree.LeafSpec).1 x
  = Ok v
  ∧ (rest ≠ [] →
       Pytree.general_unflatten unflatten_fn Pytree.LeafSpec x
       = Raise ValueError).
Proof.
  intros Hitems. unfold Pytree.unflatten, Pytree.general_unflatten. simpl.
  rewrite Hitems. unfold_result. split; [done|].
  intros Hrest. destruct rest; [done|]. done.
Qed.
End thunk_extras.

Lemma leaf_path_takes_first_item_witness :
  Pytree.unflatten Example.unflatten_fn
    (Pytree.set Pytree.fresh Pytree.LeafSpec).1 (PyTuple [Example.x; Example.k])
  = Ok Example.x
  ∧ Pytree.general_unflatten Example.unflatten_fn Pytree.LeafSpec
      (PyTuple [Example.x; Example.k])
    = Raise ValueError.
Proof.
  destruct (leaf_path_takes_first_item Example.unflatten_fn
              (PyTuple [Example.x; Example.k]) Example.x [Example.k] eq_refl)
    as [Hfast Hgeneral].
  split; [exact Hfast|]. apply Hgeneral. discriminate.
Defined.

(** ** Dictionaries as pytree nodes *)

Section dict_facts.
Import Dict.
Context {K : Type} `{EqDecision K}.
Implicit Types (d : list (K * pyval)) (k : K) (v : pyval).

Lemma get_Some_elem d k v : get d k = Some v → (k, v) ∈ d.
Proof.
  induction d as [|[k' v'] d IH]; simpl; [done|].
  case_decide as Hk.
  - intros [= <-]. subst. apply elem_of_cons. by left.
  - intros Hget. apply elem_of_cons. right. by apply IH.
Qed.

Lemma get_None d k : get d k = None ↔ k ∉ keys d.
Proof.
  unfold keys. induction d as [|[k' v'] d IH]; cbn [get fmap list_fmap fst].
  - split; [intros _; apply not_elem_of_nil|done].
  - rewrite not_elem_of_cons. case_decide as Hk.
    + split; [done|]. intros [Hne _]. by destruct Hne.
    + rewrite IH. split; [by split; [congruence|]|by intros [_ ?]].
Qed.

Lemma get_is_Some d k : is_Some (get d k) ↔ k ∈ keys d.
Proof.
  rewrite <- not_eq_None_Some, get_None.
  split; [apply dec_stable|tauto].
Qed.

Lemma get_elem_NoDup d k v : NoDup (keys d) → (k, v) ∈ d → get d k = Some v.
Proof.
  unfold keys. induction d as [|[k' v'] d IH]; simpl.
  - intros _ Hin. by apply elem_of_nil in Hin.
  - intros [Hnotin Hnd]%NoDup_cons [[= -> ->]|Hin]%elem_of_cons.
    + by rewrite decide_True.
    + rewrite decide_False; [by apply IH|].
      intros ->. apply Hnotin. apply list_elem_of_fmap. by exists (k, v).
Qed.

(** Two dictionaries with the same items look up alike. *)
Lemma get_Permutation d1 d2 k :
  NoDup (keys d1) → d1 ≡ₚ d2 → get d1 k = get d2 k.
Proof.
  intros Hnd Hperm.
  assert (Hnd2 : NoDup (keys d2)) by (unfold keys in *; by rewrite <- Hperm).
  destruct (get d1 k) as [v|] eqn:H1.
  - symmetry. apply get_elem_NoDup; [done|].
    rewrite <- Hperm. by apply get_Some_elem.
  - symmetry. apply get_None. apply get_None in H1.
    unfold keys in *. by rewrite <- Hperm.
Qed.

Lemma set_item_new d k v : k ∉ keys d → set_item d k v = d ++ [(k, v)].
Proof.
  unfold keys. induction d as [|[k' v'] d IH]; simpl; [done|].
  intros [Hne Hnotin]%not_elem_of_cons.
  rewrite decide_False by done. by rewrite IH.
Qed.

Lemma set_item_old d k v : k ∈ keys d → keys (set_item d k v) = keys d.
Proof.
  unfold keys. induction d as [|[k' v'] d IH]; cbn [set_item fmap list_fmap fst].
  - intros Hin. by apply elem_of_nil in Hin.
  - intros Hin. case_decide as Hk; cbn [fmap list_fmap fst]; [by subst|].
    f_equal. apply IH. apply elem_of_cons in Hin as [->|Hin]; done.
Qed.

Lemma set_item_get d k v k' :
  get (set_item d k v) k' = if decide (k = k') then Some v else get d k'.
Proof.
  induction d as [|[k0 v0] d IH]; simpl.
  - done.
  - destruct (decide (k0 = k)) as [->|Hk0]; simpl.
    + destruct (decide (k = k')); done.
    + rewrite IH. destruct (decide (k0 = k')) as [->|]; [|done].
      by rewrite decide_False by done.
Qed.

Lemma set_item_NoDup d k v : NoDup (keys d) → NoDup (keys (set_item d k v)).
Proof.
  intros Hnd. destruct (decide (k ∈ keys d)) as [Hin|Hnotin].
  - by rewrite set_item_old.
  - rewrite set_item_new by done. unfold keys in *. rewrite fmap_app.
    apply NoDup_app. split_and!; [done| |apply NoDup_singleton].
    intros k' Hk' ->%list_elem_of_singleton. done.
Qed.

Lemma comprehension_from (acc pairs : list (K * pyval)) :
  NoDup (keys acc) →
  NoDup (keys (foldl (λ d kv, set_item d kv.1 kv.2) acc pairs))
  ∧ ∀ k, get (foldl (λ d kv, set_item d kv.1 kv.2) acc pairs) k
         = match get (reverse pairs) k with
           | Some v => Some v
           | None => get acc k
           end.
Proof.
  revert acc. induction pairs as [|[k0 v0] pairs IH]; intros acc Hnd; simpl.
  - done.
  - destruct (IH (set_item acc k0 v0) (set_item_NoDup _ _ _ Hnd)) as [Hnd' Hget].
    split; [done|]. intros k. rewrite Hget, reverse_cons.
    assert (Happ : ∀ l1 l2, get (l1 ++ l2) k
                   = match get l1 k with Some v => Some v | None => get l2 k end).
    { clear. intros l1 l2. induction l1 as [|[k1 v1] l1 IHl]; simpl; [done|].
      by case_decide. }
    rewrite Happ. destruct (get (reverse pairs) k); [done|]. simpl.
    rewrite set_item_get. by case_decide.
Qed.

Lemma comprehension_NoDup_id (pairs : list (K * pyval)) :
  NoDup (keys pairs) → comprehension pairs = pairs.
Proof.
  unfold comprehension.
  enough (Hgen : ∀ acc, NoDup (keys (acc ++ pairs)) →
            foldl (λ d kv, set_item d kv.1 kv.2) acc pairs = acc ++ pairs).
  { intros Hnd. by apply (Hgen []). }
  induction pairs as [|[k0 v0] pairs IH]; intros acc Hnd; simpl.
  - by rewrite app_nil_r.
  - rewrite set_item_new.
    + rewrite IH; rewrite <- app_assoc; done.
    + unfold keys in *. rewrite fmap_app in Hnd.
      apply NoDup_app in Hnd as (_ & Hdisj & _).
      intros Hin. apply (Hdisj k0 Hin). simpl. apply elem_of_cons. by left.
Qed.

(** X22: a dictionary built from pairs holds every key once, with the
    value of the last pair that has the key. *)
Theorem comprehension_last_pair_wins (pairs : list (K * pyval)) :
  NoDup (keys (comprehension pairs))
  ∧ ∀ k, get (comprehension pairs) k = get (reverse pairs) k.
Proof.
  destruct (comprehension_from [] pairs) as [Hnd Hget]; [constructor|].
  split; [done|]. intros k. rewrite Hget. by destruct (get (reverse pairs) k).
Qed.

(** X23: flattening an [immutable_dict] and unflattening the result gives
    the dictionary back, keys in the same order. *)
Theorem immutable_dict_round_trip (x : list (K * pyval)) :
  NoDup (keys x) →
  immutable_dict_unflatten (immutable_dict_flatten x).1
                           (immutable_dict_flatten x).2 = x.
Proof.
  intros Hnd. unfold immutable_dict_unflatten, immutable_dict_flatten. simpl.
  unfold keys, values in *. rewrite zip_fst_snd. by apply comprehension_NoDup_id.
Qed.

Section sorted_keys.
Context (R : relation K) `{!∀ x y, Decision (R x y)} `{!Total R}.

(** X24: [_dict_flatten] never fails with [KeyError]: it returns the keys
    in ascending order, each key of the dictionary once per occurrence, and
    at each position the value the dictionary has for the key there. *)
Theorem dict_flatten_sorted d :
  ∃ values,
    _dict_flatten R d = Some (values, merge_sort R (keys d))
    ∧ Sorted R (merge_sort R (keys d))
    ∧ merge_sort R (keys d) ≡ₚ keys d
    ∧ Forall2 (λ k v, get d k = Some v) (merge_sort R (keys d)) values.
Proof using Type*.
  unfold _dict_flatten.
  destruct (mapM (get d) (merge_sort R (keys d))) as [vs|] eqn:Hvs.
  - exists vs. split_and!; [done| | |].
    + apply (Sorted_merge_sort R).
    + apply merge_sort_Permutation.
    + by apply mapM_Some_1.
  - apply mapM_None_1, Exists_exists in Hvs as (k & Hk & Hnone).
    apply get_None in Hnone. by rewrite merge_sort_Permutation in Hk.
Qed.

Lemma get_zip_lookup d ks vs k :
  Forall2 (λ k v, get d k = Some v) ks vs →
  (k ∈ ks → get (zip ks vs) k = get d k)
  ∧ (k ∉ ks → get (zip ks vs) k = None).
Proof.
  induction 1 as [|k0 v0 ks vs Hkv _ [IHin IHout]]; cbn [zip zip_with get].
  - split; [intros Hin; by apply elem_of_nil in Hin|done].
  - rewrite not_elem_of_cons, elem_of_cons.
    destruct (decide (k0 = k)) as [->|Hne].
    + split; [done|]. intros [Hk _]. by destruct Hk.
    + split; [intros [->|Hin]; [done|by apply IHin]|].
      intros [_ Hout]. by apply IHout.
Qed.

(** X25: flattening a dictionary and unflattening the result gives a
    dictionary with the same value at every key, its keys in ascending
    order. *)
Theorem dict_round_trip d :
  NoDup (keys d) →
  ∃ values context,
    _dict_flatten R d = Some (values, context)
    ∧ keys (_dict_unflatten values context) = merge_sort R (keys d)
    ∧ ∀ k, get (_dict_unflatten values context) k = get d k.
Proof using Type*.
  intros Hnd.
  assert (Hperm : merge_sort R (keys d) ≡ₚ keys d)
    by apply merge_sort_Permutation.
  destruct (mapM (get d) (merge_sort R (keys d))) as [vs|] eqn:Hvs; last first.
  { apply mapM_None_1, Exists_exists in Hvs as (k & Hk & Hnone).
    apply get_None in Hnone. by rewrite Hperm in Hk. }
  assert (Hall := mapM_Some_1 _ _ _ Hvs).
  assert (Hflat : _dict_flatten R d = Some (vs, merge_sort R (keys d))).
  { unfold _dict_flatten. by rewrite Hvs. }
  exists vs, (merge_sort R (keys d)). split; [done|].
  assert (Hlen : length (merge_sort R (keys d)) = length vs)
    by (by eapply Forall2_length).
  unfold _dict_unflatten. rewrite comprehension_NoDup_id; last first.
  { unfold keys at 1. rewrite fst_zip by lia. by rewrite Hperm. }
  split.
  - unfold keys at 1. by rewrite fst_zip by lia.
  - intros k. destruct (get_zip_lookup d _ _ k Hall) as [Hin Hout].
    destruct (decide (k ∈ merge_sort R (keys d))) as [Hk|Hk].
    + by apply Hin.
    + rewrite Hout by done. symmetry. apply get_None. by rewrite <- Hperm.
Qed.

Context `{!Transitive R, !AntiSymm (=) R}.

(** X26: the flattening does not depend on the insertion order: two
    dictionaries with the same items flatten to the same values and keys. *)
Theorem dict_flatten_insertion_order d1 d2 :
  NoDup (keys d1) → d1 ≡ₚ d2 →
  _dict_flatten R d1 = _dict_flatten R d2.
Proof using Type*.
  intros Hnd Hperm. unfold _dict_flatten.
  assert (Hkeys : merge_sort R (keys d1) = merge_sort R (keys d2)).
  { apply (Sorted_unique R); try apply (Sorted_merge_sort R).
    rewrite !merge_sort_Permutation. unfold keys. by rewrite Hperm. }
  rewrite Hkeys.
  by rewrite (mapM_ext (get d1) (get d2))
    by (intros k; by apply get_Permutation).
Qed.
End sorted_keys.
End dict_facts.

Lemma immutable_dict_round_trip_witness :
  Dict.immutable_dict_unflatten [Example.x; Example.k] [2; 1]
  = [(2, Example.x); (1, Example.k)].
Proof.
  apply (immutable_dict_round_trip [(2, Example.x); (1, Example.k)]).
  compute_done.
Defined.

Lemma dict_round_trip_witness :
  ∃ values context,
    Dict._dict_flatten (≤) [(2, Example.x); (1, Example.k)]
    = Some (values, context)
    ∧ Dict.keys (Dict._dict_unflatten values context) = [1; 2]
    ∧ Dict.get (Dict._dict_unflatten values context) 2 = Some Example.x.
Proof.
  destruct (dict_round_trip (≤) [(2, Example.x); (1, Example.k)])
    as (values & context & Hflat & Hkeys & Hget).
  { compute_done. }
  exists values, context. split; [exact Hflat|]. split; [exact Hkeys|].
  exact (Hget 2).
Defined.

Lemma dict_flatten_insertion_order_witness :
  Dict._dict_flatten (≤) [(2, Example.x); (1, Example.k)]
  = Dict._dict_flatten (≤) [(1, Example.k); (2, Example.x)].
Proof.
  apply (dict_flatten_insertion_order (≤)).
  - compute_done.
  - apply perm_swap.
Defined.

(** ** The module wrapper *)

(** X27: [aot_module] hands the module's parameters and buffers over as one
    dictionary: every parameter and every buffer is in it under its name,
    and where a buffer has the name of a parameter the buffer is the one
    found. *)
Theorem params_and_buffers_lookup named_params named_buffers (name : string) :
  AotFunction.params_and_buffers named_params named_buffers !! name
  = match named_buffers !! name with
    | Some buffer => Some buffer
    | None => named_params !! name
    end
  ∧ dom (AotFunction.params_and_buffers named_params named_buffers)
    = dom named_params ∪ dom named_buffers.
Proof.
  unfold AotFunction.params_and_buffers, Decomp.dict_unpack. split.
  - rewrite lookup_union.
    by destruct (named_buffers !! name), (named_params !! name).
  - rewrite dom_union_L. apply (comm_L (∪)).
Qed.

Lemma dict_flatten_sorted_witness :
  ∃ values,
    Dict._dict_flatten (≤) [(2, Example.x); (1, Example.k)]
    = Some (values, [1; 2])
    ∧ Forall2 (λ k v, Dict.get [(2, Example.x); (1, Example.k)] k = Some v)
        [1; 2] values.
Proof.
  destruct (dict_flatten_sorted (≤) [(2, Example.x); (1, Example.k)])
    as (values & Hflat & _ & _ & Hvalues).
  exists values. split; [exact Hflat|exact Hvalues].
Defined.
